(** * Upload / caption / retrieval pipeline of [main.py]

    A shallow embedding of the Flask handlers [upload] and [get_file] and
    of the helpers they call.  The object store (one bucket) and the local
    staging directory are finite maps from names to contents; handlers are
    state-passing functions that either return a value or raise.  Python
    strings are sequences of code points below 256, written as [string]. *)

From Stdlib Require Import Ascii ZArith Lia Bool.
From stdpp Require Import gmap strings sorting.

Local Open Scope Z_scope.
Set Warnings "-register-all".

(** ** Python string methods used by the handlers *)

Module Str.

(** [s.startswith(p)] *)
Fixpoint startswith (p s : string) : bool :=
  match p, s with
  | EmptyString, _ => true
  | String _ _, EmptyString => false
  | String a p', String b s' => Ascii.eqb a b && startswith p' s'
  end.

(** [p in s] *)
Fixpoint contains (p s : string) : bool :=
  match s with
  | EmptyString => startswith p s
  | String _ s' => startswith p s || contains p s'
  end.

(** [s.replace(old, new)] for a non-empty [old]: the occurrences of [old]
    are found left to right and do not overlap.  [skip] counts the
    characters of a matched occurrence that are still to be dropped. *)
Fixpoint replace_from (old new : string) (skip : nat) (s : string) : string :=
  match s with
  | EmptyString => EmptyString
  | String c s' =>
      match skip with
      | S k => replace_from old new k s'
      | O =>
          if startswith old s
          then new +:+ replace_from old new (Nat.pred (String.length old)) s'
          else String c (replace_from old new O s')
      end
  end.

Definition replace (old new s : string) : string := replace_from old new O s.

(** [c.isspace()] on code points below 256. *)
Definition isspace (c : ascii) : bool :=
  let n := Z.of_nat (nat_of_ascii c) in
  ((9 <=? n) && (n <=? 13)) || ((28 <=? n) && (n <=? 32))
  || (n =? 133) || (n =? 160).

Fixpoint lstrip (s : string) : string :=
  match s with
  | EmptyString => EmptyString
  | String c s' => if isspace c then lstrip s' else s
  end.

Fixpoint rstrip (s : string) : string :=
  match s with
  | EmptyString => EmptyString
  | String c s' =>
      match rstrip s' with
      | EmptyString => if isspace c then EmptyString else String c EmptyString
      | r => String c r
      end
  end.

(** [s.endswith(p)] *)
Fixpoint endswith (p s : string) : bool :=
  match s with
  | EmptyString => String.eqb p s
  | String _ s' => String.eqb p s || endswith p s'
  end.

(** [s.strip()] *)
Definition strip (s : string) : string := rstrip (lstrip s).

End Str.

(** [os.path.join(a, b)] on POSIX paths, for two components: an absolute
    [b] discards [a]; otherwise the parts are joined by one separator. *)
Definition os_path_join (a b : string) : string :=
  if Str.startswith "/" b then b
  else if String.eqb a "" || Str.endswith "/" a then a +:+ b
  else a +:+ "/" +:+ b.

Definition BUCKET_NAME : string := "sutcliff-fau-cloud-native".
Definition LOCAL_DIR : string := "files".

(** The expression [s.replace(".jpeg", ".json").replace(".jpg", ".json")],
    which [upload] applies to the staged path and to the file name and
    [get_file] applies to the file name. *)
Definition json_name (s : string) : string :=
  Str.replace ".jpg" ".json" (Str.replace ".jpeg" ".json" s).

(** ** Values, exceptions and the runtime library *)

(** Objects that [json.loads] can return.  A dictionary keeps its keys in
    insertion order.  Numbers with a fraction or an exponent are not
    represented. *)
Inductive value : Type :=
| VNone
| VBool (b : bool)
| VInt (n : Z)
| VStr (s : string)
| VList (items : list value)
| VDict (fields : list (string * value)).

Inductive exn : Type :=
| BadRequestKeyError (key : string)   (* request.files[...] on a missing field *)
| OSError (path : string)             (* local I/O fault *)
| FileNotFoundError (path : string)
| GoogleAPIError (blob : string)      (* object store: transport or auth fault *)
| NotFound (blob : string)            (* object store: no such object *)
| GeminiError                         (* caption service fault *)
| JSONDecodeError (doc : string)
| KeyError (key : string)
| TypeError.

(** The parts of the Python runtime that the handlers call and that are not
    defined in [main.py]: the [json] module, [repr()] of a value (an
    f-string shows a value that is not a string by its [repr]), and [str()]
    on an exception. *)
Class PyRuntime : Type := {
  json_loads : string -> option value;   (* [None]: raises JSONDecodeError *)
  json_dumps : value -> string;
  py_repr : value -> string;
  exn_str : exn -> string
}.

Fixpoint assoc {A : Type} (k : string) (d : list (string * A)) : option A :=
  match d with
  | [] => None
  | (k', x) :: d' => if String.eqb k k' then Some x else assoc k d'
  end.

(** [v[k]] for a string key [k]. *)
Definition getitem (v : value) (k : string) : exn + value :=
  match v with
  | VDict d => match assoc k d with
               | Some x => inr x
               | None => inl (KeyError k)
               end
  | _ => inl TypeError
  end.

(** [f"{v}"]: a string is shown as it is, any other value by its [repr]. *)
Definition py_str {rt : PyRuntime} (v : value) : string :=
  match v with
  | VStr s => s
  | _ => py_repr v
  end.

(** ** The world outside the process *)

(** Calls to an external resource, in the order they are made. *)
Inductive call : Type :=
| CSave (path : string)                 (* file.save(path) *)
| CGcsUpload (path blob : string)       (* blob.upload_from_filename(path) *)
| CGcsDownload (blob path : string)     (* blob.download_to_filename(path) *)
| CGeminiUpload (path : string)         (* genai.upload_file(path) *)
| CGenerate                             (* model.generate_content(...) *)
| COpenWrite (path : string)            (* open(path, "w") *)
| COpenRead (path : string)             (* open(path, "r") *)
| CRemove (path : string).              (* os.remove(path) *)

(** [gcs] is the bucket and [fs] the local file system, both flat maps from
    a name to the contents.  [reply] is the text the caption service answers
    with.  [script] says which of the external calls to come raise a fault
    of their resource (disk, network, credentials): one entry per call, and
    no entry means no fault.  [log] records the calls made. *)
Record world : Type := World {
  gcs : gmap string string;
  fs : gmap string string;
  reply : string;
  script : list bool;
  log : list call
}.

Definition set_gcs (g : gmap string string) (w : world) : world :=
  World g (fs w) (reply w) (script w) (log w).
Definition set_fs (f : gmap string string) (w : world) : world :=
  World (gcs w) f (reply w) (script w) (log w).

(** ** Computations that read and write the world and may raise *)

Definition M (A : Type) : Type := world -> (exn + A) * world.

Definition ret {A : Type} (a : A) : M A := fun w => (inr a, w).
Definition raise {A : Type} (e : exn) : M A := fun w => (inl e, w).
Definition bind {A B : Type} (m : M A) (k : A -> M B) : M B :=
  fun w => match m w with
           | (inl e, w') => (inl e, w')
           | (inr a, w') => k a w'
           end.

(** [try: m except Exception as e: h e] *)
Definition try_except {A : Type} (m : M A) (h : exn -> M A) : M A :=
  fun w => match m w with
           | (inl e, w') => h e w'
           | (inr a, w') => (inr a, w')
           end.

Declare Scope py_scope.
Delimit Scope py_scope with py.
Notation "x <- m ;; k" := (bind m (fun x => k))
  (at level 100, m at next level, right associativity) : py_scope.
Notation "m ;; k" := (bind m (fun _ => k))
  (at level 100, right associativity) : py_scope.
Local Open Scope py_scope.

(** An external call: it is logged and consumes one entry of the script,
    and it raises [e] when that entry says that the call faults. *)
Definition tick (c : call) (w : world) : world :=
  World (gcs w) (fs w) (reply w) (tl (script w)) (log w ++ [c]).

Definition external (c : call) (e : exn) : M unit :=
  fun w => (if hd false (script w) then inl e else inr tt, tick c w).

(** A pure step that returns or raises. *)
Definition lift {A : Type} (r : exn + A) : M A := fun w => (r, w).

Definition read_file (path : string) : M string :=
  fun w => match fs w !! path with
           | Some data => (inr data, w)
           | None => (inl (FileNotFoundError path), w)
           end.

Definition write_file (path data : string) : M unit :=
  fun w => (inr tt, set_fs (<[path := data]> (fs w)) w).

(** ** HTTP responses *)

Inductive body : Type :=
| Html (text : string)
| Json (fields : list (string * string))
| Redirect (location : string).

Record response : Type := Response { status : Z; content : body }.

(** What Flask makes of a view's return value: a string is an HTML page
    with status 200, [redirect(url)] is a 302, and a pair gives the status
    explicitly. *)
Definition flask_str (text : string) : response := Response 200 (Html text).
Definition redirect (url : string) : response := Response 302 (Redirect url).

(** An uploaded file of a multipart form: [file.filename] and the bytes. *)
Record file_storage : Type := FileStorage { filename : string; stream : string }.

(** The request of [POST /upload]: [request.files.get("form_file")]. *)
Record request : Type := Request { form_file : option file_storage }.

Definition dq : string := String "034"%char EmptyString.
Definition nl : string := String "010"%char EmptyString.

(** ** The handlers of [main.py]

    [print] and [traceback.print_exc] only write to the console of the
    process and are left out. *)

Section Handlers.

Context {rt : PyRuntime}.

(** [file.save(path)]: the path is opened for writing and the bytes of the
    upload are copied to it.  The disk refuses a path that it cannot hold
    (the staging directory itself, a path through a directory that does not
    exist); that refusal is a fault of the call and, like every fault, it
    is the script's to decide.  A statement about a run of [upload] in
    which no call faults carries the condition that the name can be staged
    ([staged_name]). *)
Definition file_save (file : file_storage) (path : string) : M unit :=
  external (CSave path) (OSError path) ;;
  write_file path (stream file).

(** [os.remove(path)] *)
Definition os_remove (path : string) : M unit :=
  external (CRemove path) (OSError path) ;;
  _ <- read_file path ;;
  fun w => (inr tt, set_fs (delete path (fs w)) w).

(** [blob.upload_from_filename(file_path)] for the blob [blob_name] *)
Definition blob_upload_from_filename (blob_name file_path : string) : M unit :=
  external (CGcsUpload file_path blob_name) (GoogleAPIError blob_name) ;;
  data <- read_file file_path ;;
  fun w => (inr tt, set_gcs (<[blob_name := data]> (gcs w)) w).

(** [blob.download_to_filename(local_path)] for the blob [blob_name], as
    the storage client does it: the target is opened for writing, which
    empties it, before anything is transferred; when the object does not
    exist the client removes the target and raises [NotFound] again; after
    any other fault of the transfer the target stays as the fault left it,
    which is taken to be empty (the fault strikes before the first byte). *)
Definition blob_download_to_filename (blob_name local_path : string) : M unit :=
  write_file local_path "" ;;
  external (CGcsDownload blob_name local_path) (GoogleAPIError blob_name) ;;
  fun w => match gcs w !! blob_name with
           | Some data => write_file local_path data w
           | None => (inl (NotFound blob_name), set_fs (delete local_path (fs w)) w)
           end.

Definition upload_to_gcs (bucket_name file_path blob_name : string) : M unit :=
  blob_upload_from_filename blob_name file_path.

Definition download_from_gcs (bucket_name file_name : string) : M string :=
  let local_path := os_path_join LOCAL_DIR file_name in
  blob_download_to_filename file_name local_path ;;
  ret local_path.

(** [genai.upload_file(path, mime_type=...)]; the handle it returns is
    only printed. *)
Definition upload_to_gemini (path : string) : M unit :=
  external (CGeminiUpload path) GeminiError ;;
  _ <- read_file path ;;
  ret tt.

(** [model.generate_content([gemini_file, "\n\n", PROMPT]).text] *)
Definition generate_content_text (gemini_file : unit) : M string :=
  external CGenerate GeminiError ;;
  fun w => (inr (reply w), w).

Definition default_metadata : value :=
  VDict [("title", VStr "Untitled");
         ("description", VStr "No description available.")].

(** Lines 79-82: [response.text.strip()], then [json.loads] unless the
    stripped text is empty. *)
Definition caption_of_text (text : string) : exn + value :=
  let response_text := Str.strip text in
  if String.eqb response_text ""
  then inr default_metadata
  else match json_loads response_text with
       | Some metadata => inr metadata
       | None => inl (JSONDecodeError response_text)
       end.

Definition generate_image_caption (image_path : string) : M value :=
  gemini_file <- upload_to_gemini image_path ;;
  text <- generate_content_text gemini_file ;;
  lift (caption_of_text text).

(** [with open(json_path, "w") as json_file: json.dump(metadata, json_file)] *)
Definition dump_to_file (json_path : string) (metadata : value) : M unit :=
  external (COpenWrite json_path) (OSError json_path) ;;
  write_file json_path (json_dumps metadata).

(** [with open(json_path, "r") as json_file: json.load(json_file)] *)
Definition load_from_file (json_path : string) : M value :=
  external (COpenRead json_path) (OSError json_path) ;;
  data <- read_file json_path ;;
  match json_loads data with
  | Some metadata => ret metadata
  | None => raise (JSONDecodeError data)
  end.

(** [request.files['form_file']] *)
Definition request_file (req : request) : M file_storage :=
  match form_file req with
  | Some file => ret file
  | None => raise (BadRequestKeyError "form_file")
  end.

(** The body of the [try] block of [upload]. *)
Definition upload_try (req : request) : M response :=
  file <- request_file req ;;
  let local_path := os_path_join LOCAL_DIR (filename file) in
  file_save file local_path ;;
  upload_to_gcs BUCKET_NAME local_path (filename file) ;;
  metadata <- generate_image_caption local_path ;;
  let json_path := json_name local_path in
  dump_to_file json_path metadata ;;
  let json_filename := json_name (filename file) in
  upload_to_gcs BUCKET_NAME json_path json_filename ;;
  os_remove local_path ;;
  os_remove json_path ;;
  ret (redirect ("/files/" +:+ filename file)).

(** [jsonify({"error": str(e)}), 500] *)
Definition json_error (e : exn) : response :=
  Response 500 (Json [("error", exn_str e)]).

Definition upload (req : request) : M response :=
  try_except (upload_try req) (fun e => ret (json_error e)).

Definition image_html (title_text file_name description_text : string) : string :=
  nl +:+ "        <h2>" +:+ title_text +:+ "</h2>" +:+ nl +:+
  "        <img src=" +:+ dq +:+ "/image/" +:+ file_name +:+ dq +:+
  " width=" +:+ dq +:+ "500" +:+ dq +:+ ">" +:+ nl +:+
  "        <p>" +:+ description_text +:+ "</p>" +:+ nl +:+
  "        <p><a href=" +:+ dq +:+ "/" +:+ dq +:+ ">Back</a></p>" +:+ nl +:+
  "        ".

(** The body of the [try] block of [get_file]. *)
Definition get_file_try (file_name : string) : M response :=
  image_path <- download_from_gcs BUCKET_NAME file_name ;;
  json_path <- download_from_gcs BUCKET_NAME (json_name file_name) ;;
  metadata <- load_from_file json_path ;;
  title <- lift (getitem metadata "title") ;;
  description <- lift (getitem metadata "description") ;;
  ret (flask_str (image_html (py_str title) file_name (py_str description))).

Definition error_html (e : exn) : string :=
  "<p>Error fetching file: " +:+ exn_str e +:+ "</p>".

Definition get_file (file_name : string) : M response :=
  try_except (get_file_try file_name) (fun e => ret (flask_str (error_html e))).

End Handlers.

(** ** The routes [index] and [get_image]

    These two views have no [try] block: an exception of a call they make
    leaves the view.  [log] has entries only for the calls of [upload] and
    [get_file]; a call made by these two routes consumes its entry of the
    script and is not logged. *)

Definition unlogged (e : exn) : M unit :=
  fun w => (if hd false (script w) then inl e else inr tt,
            World (gcs w) (fs w) (reply w) (tl (script w)) (log w)).

(** The names of the objects of a bucket as [bucket.list_blobs()] yields
    them: the object store lists in lexicographic order. *)
Definition blob_names (bucket : gmap string string) : list string :=
  merge_sort (fun a b : string => Is_true (String.leb a b)) (elements (dom bucket)).

(** [[blob.name for blob in bucket.list_blobs()]] *)
Definition get_gcs_files (bucket_name : string) : M (list string) :=
  unlogged (GoogleAPIError bucket_name) ;;
  fun w => (inr (blob_names (gcs w)), w).

(** [file.endswith(".jpeg") or file.endswith(".jpg")] *)
Definition is_image (file : string) : bool :=
  Str.endswith ".jpeg" file || Str.endswith ".jpg" file.

(** The literal that [index_html] starts from. *)
Definition INDEX_FORM : string :=
  nl +:+ "    <form method=" +:+ dq +:+ "post" +:+ dq +:+ " enctype=" +:+ dq +:+
  "multipart/form-data" +:+ dq +:+ " action=" +:+ dq +:+ "/upload" +:+ dq +:+ ">" +:+ nl +:+
  "        <label for=" +:+ dq +:+ "file" +:+ dq +:+ ">Choose file to upload</label>" +:+ nl +:+
  "        <input type=" +:+ dq +:+ "file" +:+ dq +:+ " id=" +:+ dq +:+ "file" +:+ dq +:+
  " name=" +:+ dq +:+ "form_file" +:+ dq +:+ " accept=" +:+ dq +:+ "image/jpeg" +:+ dq +:+
  "/>" +:+ nl +:+
  "        <button>Submit</button>" +:+ nl +:+
  "    </form>" +:+ nl +:+
  "    <hr><table width=" +:+ dq +:+ "80%" +:+ dq +:+ " align=" +:+ dq +:+ "center" +:+ dq +:+
  ">" +:+ nl +:+
  "    ".

(** The f-string appended for one image. *)
Definition cell_html (file : string) : string :=
  nl +:+ "                <td width=" +:+ dq +:+ "50%" +:+ dq +:+ ">" +:+ nl +:+
  "                    <a href=" +:+ dq +:+ "/files/" +:+ file +:+ dq +:+ ">" +:+ nl +:+
  "                        <img width=" +:+ dq +:+ "100%" +:+ dq +:+ " src=" +:+ dq +:+
  "/image/" +:+ file +:+ dq +:+ ">" +:+ nl +:+
  "                    </a>" +:+ nl +:+
  "                </td>" +:+ nl +:+
  "            ".

(** One turn of the loop of [index], on the pair of [idx] and [index_html]. *)
Definition index_step (st : nat * string) (file : string) : nat * string :=
  let '(idx, index_html) := st in
  if is_image file then
    let idx := S idx in
    let index_html := if Nat.odd idx then index_html +:+ "<tr>" else index_html in
    let index_html := index_html +:+ cell_html file in
    let index_html := if Nat.even idx then index_html +:+ "</tr>" else index_html in
    (idx, index_html)
  else st.

(** The page that [index] builds from the listing [files]. *)
Definition index_html_of (files : list string) : string :=
  snd (fold_left index_step files (O, INDEX_FORM)) +:+ "</table>".

Definition index : M response :=
  files <- get_gcs_files BUCKET_NAME ;;
  ret (flask_str (index_html_of files)).

(** [send_file(path)]: the bytes of the local file that are sent.  The
    application is taken to run in its own directory, so that the relative
    path names the file that [open] and [os.remove] name. *)
Definition send_file (path : string) : M string :=
  unlogged (OSError path) ;;
  read_file path.

Definition get_image (file_name : string) : M string :=
  send_file (os_path_join LOCAL_DIR file_name).

(** ** A reference runtime

    An executable instance of [PyRuntime], used to run the handlers on
    concrete requests.  [loads] and [dumps] follow the grammar and the
    default formatting of Python's [json] module on the values above
    (integers only; escapes beyond code point 255 are rejected, so that
    a text with a fraction, an exponent or such an escape is outside the
    codec and no statement is made about it).  [exn_text] is [str(e)]:
    Python's own text for a [KeyError], a missing file and a missing form
    field; for the faults of the disk and of the two services, whose
    messages are the library's and the server's, and for a rejected or
    ill-typed document, it renders the class and its argument. *)

Module RefRuntime.

Definition chr (n : Z) : ascii := ascii_of_nat (Z.to_nat n).
Definition ord (c : ascii) : Z := Z.of_nat (nat_of_ascii c).

Definition hex_digit (n : Z) : ascii :=
  if n <? 10 then chr (48 + n) else chr (87 + n).

Definition hex_val (c : ascii) : option Z :=
  let n := ord c in
  if (48 <=? n) && (n <=? 57) then Some (n - 48)
  else if (97 <=? n) && (n <=? 102) then Some (n - 87)
  else if (65 <=? n) && (n <=? 70) then Some (n - 55)
  else None.

Fixpoint digits (fuel : nat) (n : Z) (acc : string) : string :=
  match fuel with
  | O => acc
  | S f =>
      let acc' := String (chr (48 + n mod 10)) acc in
      if n <? 10 then acc' else digits f (n / 10) acc'
  end.

(** [str(n)] for an integer *)
Definition int_text (n : Z) : string :=
  if n <? 0 then String "-" (digits (Z.to_nat (- n)) (- n) EmptyString)
  else digits (S (Z.to_nat n)) n EmptyString.

Fixpoint join (sep : string) (l : list string) : string :=
  match l with
  | [] => EmptyString
  | [x] => x
  | x :: l' => x +:+ sep +:+ join sep l'
  end.

(** *** [json.dumps] *)

Definition escape_char (c : ascii) : string :=
  let n := ord c in
  if n =? 34 then "\" +:+ dq
  else if n =? 92 then "\\"
  else if n =? 10 then "\n"
  else if n =? 13 then "\r"
  else if n =? 9 then "\t"
  else if n =? 8 then "\b"
  else if n =? 12 then "\f"
  else if (32 <=? n) && (n <=? 126) then String c EmptyString
  else "\u00" +:+ String (hex_digit (n / 16)) (String (hex_digit (n mod 16)) EmptyString).

Fixpoint escape (s : string) : string :=
  match s with
  | EmptyString => EmptyString
  | String c s' => escape_char c +:+ escape s'
  end.

Definition quote (s : string) : string := dq +:+ escape s +:+ dq.

Fixpoint dumps (v : value) : string :=
  match v with
  | VNone => "null"
  | VBool true => "true"
  | VBool false => "false"
  | VInt n => int_text n
  | VStr s => quote s
  | VList items => "[" +:+ join ", " (map dumps items) +:+ "]"
  | VDict fields =>
      "{" +:+ join ", " (map (fun kv => quote (fst kv) +:+ ": " +:+ dumps (snd kv)) fields)
      +:+ "}"
  end.

(** *** [json.loads] *)

Definition is_ws (c : ascii) : bool :=
  let n := ord c in (n =? 32) || (n =? 9) || (n =? 10) || (n =? 13).

Fixpoint skip_ws (s : string) : string :=
  match s with
  | EmptyString => EmptyString
  | String c s' => if is_ws c then skip_ws s' else s
  end.

Definition unescape (c : ascii) : option ascii :=
  let n := ord c in
  if n =? 34 then Some c
  else if n =? 92 then Some c
  else if n =? 47 then Some c
  else if n =? 110 then Some (chr 10)
  else if n =? 114 then Some (chr 13)
  else if n =? 116 then Some (chr 9)
  else if n =? 98 then Some (chr 8)
  else if n =? 102 then Some (chr 12)
  else None.

Definition hex4 (a b c d : ascii) : option Z :=
  match hex_val a, hex_val b, hex_val c, hex_val d with
  | Some x, Some y, Some z, Some t => Some (((x * 16 + y) * 16 + z) * 16 + t)
  | _, _, _, _ => None
  end.

Definition push (c : ascii) (r : option (string * string)) : option (string * string) :=
  match r with
  | Some (s, rest) => Some (String c s, rest)
  | None => None
  end.

(** The characters of a string literal, after the opening quote. *)
Fixpoint parse_chars (s : string) : option (string * string) :=
  match s with
  | EmptyString => None
  | String c s' =>
      if ord c =? 34 then Some (EmptyString, s')
      else if ord c =? 92 then
        match s' with
        | EmptyString => None
        | String e s'' =>
            match unescape e with
            | Some ch => push ch (parse_chars s'')
            | None =>
                if ord e =? 117 then
                  match s'' with
                  | String h1 (String h2 (String h3 (String h4 r))) =>
                      match hex4 h1 h2 h3 h4 with
                      | Some n => if n <? 256 then push (chr n) (parse_chars r) else None
                      | None => None
                      end
                  | _ => None
                  end
                else None
            end
        end
      else if ord c <? 32 then None
      else push c (parse_chars s')
  end.

Definition is_digit (c : ascii) : bool := (48 <=? ord c) && (ord c <=? 57).

Fixpoint parse_digits (acc : Z) (s : string) : Z * string :=
  match s with
  | EmptyString => (acc, s)
  | String c s' =>
      if is_digit c then parse_digits (acc * 10 + (ord c - 48)) s' else (acc, s)
  end.

(** An integer literal: an optional minus sign, then 0 or a non-zero digit
    and more digits; not followed by a fraction or an exponent, and of at
    most 4300 digits, the most that [int()] converts. *)
Definition parse_nat (s : string) : option (Z * string) :=
  match s with
  | EmptyString => None
  | String c s' =>
      if negb (is_digit c) then None
      else
        let '(n, rest) := if ord c =? 48 then (0, s') else parse_digits 0 s in
        if 4300 <? Z.of_nat (String.length s) - Z.of_nat (String.length rest) then None
        else
          match rest with
          | String d _ =>
              if (ord d =? 46) || (ord d =? 101) || (ord d =? 69) then None
              else Some (n, rest)
          | EmptyString => Some (n, rest)
          end
  end.

Definition parse_int (s : string) : option (Z * string) :=
  match s with
  | String "-"%char s' =>
      match parse_nat s' with
      | Some (n, rest) => Some (- n, rest)
      | None => None
      end
  | _ => parse_nat s
  end.

Fixpoint drop (n : nat) (s : string) : string :=
  match n, s with
  | S k, String _ s' => drop k s'
  | _, _ => s
  end.

(** [d[k] = v] on an insertion-ordered dictionary *)
Fixpoint dict_set (k : string) (v : value) (d : list (string * value)) : list (string * value) :=
  match d with
  | [] => [(k, v)]
  | (k', x) :: d' => if String.eqb k k' then (k', v) :: d' else (k', x) :: dict_set k v d'
  end.

Fixpoint parse_value (fuel : nat) (s : string) {struct fuel} : option (value * string) :=
  match fuel with
  | O => None
  | S n =>
      match s with
      | EmptyString => None
      | String c r =>
          if ord c =? 34 then
            match parse_chars r with
            | Some (str, rest) => Some (VStr str, rest)
            | None => None
            end
          else if ord c =? 91 then
            match skip_ws r with
            | String "]"%char rest => Some (VList [], rest)
            | r1 =>
                match parse_items n r1 with
                | Some (items, rest) => Some (VList items, rest)
                | None => None
                end
            end
          else if ord c =? 123 then
            match skip_ws r with
            | String "}"%char rest => Some (VDict [], rest)
            | r1 =>
                match parse_members n [] r1 with
                | Some (fields, rest) => Some (VDict fields, rest)
                | None => None
                end
            end
          else if Str.startswith "null" s then Some (VNone, drop 4 s)
          else if Str.startswith "true" s then Some (VBool true, drop 4 s)
          else if Str.startswith "false" s then Some (VBool false, drop 5 s)
          else
            match parse_int s with
            | Some (z, rest) => Some (VInt z, rest)
            | None => None
            end
      end
  end
with parse_items (fuel : nat) (s : string) {struct fuel} : option (list value * string) :=
  match fuel with
  | O => None
  | S n =>
      match parse_value n s with
      | Some (v, r) =>
          match skip_ws r with
          | String ","%char r1 =>
              match parse_items n (skip_ws r1) with
              | Some (vs, rest) => Some (v :: vs, rest)
              | None => None
              end
          | String "]"%char rest => Some ([v], rest)
          | _ => None
          end
      | None => None
      end
  end
with parse_members (fuel : nat) (acc : list (string * value)) (s : string) {struct fuel}
  : option (list (string * value) * string) :=
  match fuel with
  | O => None
  | S n =>
      match s with
      | String c r =>
          if ord c =? 34 then
            match parse_chars r with
            | Some (k, r1) =>
                match skip_ws r1 with
                | String ":"%char r2 =>
                    match parse_value n (skip_ws r2) with
                    | Some (v, r3) =>
                        match skip_ws r3 with
                        | String ","%char r4 => parse_members n (dict_set k v acc) (skip_ws r4)
                        | String "}"%char rest => Some (dict_set k v acc, rest)
                        | _ => None
                        end
                    | None => None
                    end
                | _ => None
                end
            | None => None
            end
          else None
      | EmptyString => None
      end
  end.

Definition loads (s : string) : option value :=
  match parse_value (2 * String.length s + 2) (skip_ws s) with
  | Some (v, rest) => if String.eqb (skip_ws rest) "" then Some v else None
  | None => None
  end.

(** *** [repr()] *)

Definition printable (c : ascii) : bool :=
  let n := ord c in
  ((32 <=? n) && (n <=? 126)) || ((161 <=? n) && negb (n =? 173)).

Definition repr_char (q c : ascii) : string :=
  let n := ord c in
  if n =? 92 then "\\"
  else if Ascii.eqb c q then String "\" (String q EmptyString)
  else if n =? 10 then "\n"
  else if n =? 13 then "\r"
  else if n =? 9 then "\t"
  else if printable c then String c EmptyString
  else "\x" +:+ String (hex_digit (n / 16)) (String (hex_digit (n mod 16)) EmptyString).

Fixpoint repr_chars (q : ascii) (s : string) : string :=
  match s with
  | EmptyString => EmptyString
  | String c s' => repr_char q c +:+ repr_chars q s'
  end.

(** [repr(s)] for a string: single quotes, unless the string has a
    single quote and no double quote. *)
Definition repr_str (s : string) : string :=
  let q := if Str.contains "'" s && negb (Str.contains dq s)
           then "034"%char else "'"%char in
  String q (repr_chars q s) +:+ String q EmptyString.

Fixpoint repr (v : value) : string :=
  match v with
  | VNone => "None"
  | VBool true => "True"
  | VBool false => "False"
  | VInt n => int_text n
  | VStr s => repr_str s
  | VList items => "[" +:+ join ", " (map repr items) +:+ "]"
  | VDict fields =>
      "{" +:+ join ", " (map (fun kv => repr_str (fst kv) +:+ ": " +:+ repr (snd kv)) fields)
      +:+ "}"
  end.

Definition exn_text (e : exn) : string :=
  match e with
  | BadRequestKeyError k =>
      "400 Bad Request: The browser (or proxy) sent a request that this server "
      +:+ "could not understand."
  | OSError p => "OSError: " +:+ p
  | FileNotFoundError p => "[Errno 2] No such file or directory: " +:+ repr_str p
  | GoogleAPIError b => "GoogleAPIError: " +:+ b
  | NotFound b => "NotFound: " +:+ b
  | GeminiError => "GeminiError"
  | JSONDecodeError d => "JSONDecodeError: " +:+ d
  | KeyError k => repr_str k
  | TypeError => "TypeError"
  end.

Definition runtime : PyRuntime :=
  {| json_loads := loads; json_dumps := dumps; py_repr := repr; exn_str := exn_text |}.

End RefRuntime.

(** ** Notions used in the statements *)

(** [a] occurs in [s]. *)
Fixpoint has_char (a : ascii) (s : string) : bool :=
  match s with
  | EmptyString => false
  | String c s' => Ascii.eqb a c || has_char a s'
  end.

(** The external calls of one complete run of [upload], in program order. *)
Definition upload_calls (name : string) : list call :=
  let local_path := os_path_join LOCAL_DIR name in
  let json_path := json_name local_path in
  [CSave local_path; CGcsUpload local_path name;
   CGeminiUpload local_path; CGenerate;
   COpenWrite json_path; CGcsUpload json_path (json_name name);
   CRemove local_path; CRemove json_path].

(** The external call number [k] from now on (counting from 0) is the
    first one to fault. *)
Definition faults_at (k : nat) (w : world) : Prop :=
  exists rest, script w = repeat false k ++ true :: rest.

(** An exception is raised during the first [m] external calls of a run of
    [upload]: one of them faults, or the caption text, which is parsed
    after the fourth call, is rejected. *)
Definition raises_within {rt : PyRuntime} (m : nat) (w : world) : Prop :=
  (exists k, (k < m)%nat /\ faults_at k w) \/
  ((4 <= m)%nat /\ exists e, caption_of_text (reply w) = inl e).

(** A caption record whose two fields are strings. *)
Definition caption_doc (t d : string) : value :=
  VDict [("title", VStr t); ("description", VStr d)].

(** A printable ASCII character other than the path separator. *)
Definition name_char (c : ascii) : bool :=
  let n := Z.of_nat (nat_of_ascii c) in
  (32 <=? n) && (n <=? 126) && negb (n =? 47).

Fixpoint name_chars (s : string) : bool :=
  match s with
  | EmptyString => true
  | String c s' => name_char c && name_chars s'
  end.

(** A file name that the staging directory can hold, and the bucket too,
    whatever their limits are: one path component that is a file name, of
    at most 100 printable ASCII characters.  Then
    [os.path.join(LOCAL_DIR, name)] names a file directly under [files],
    and so does the path that is derived for its record.  The empty name
    gives the directory itself, and a name with a separator leads through a
    directory that [main.py] never makes, or out of the staging
    directory. *)
Definition staged_name (name : string) : bool :=
  negb (String.eqb name "") && negb (String.eqb name ".") && negb (String.eqb name "..")
  && name_chars name && (String.length name <=? 100)%nat.

(** The value [v] is a JSON object that has a field [k]. *)
Definition has_field (k : string) (v : value) : Prop :=
  exists fields, v = VDict fields /\ k ∈ fields.*1.

(** The structure that the specification expects of a Caption Record:
    exactly the two fields, both strings, in either order. *)
Definition two_field_record (t d : string) (v : value) : Prop :=
  v = VDict [("title", VStr t); ("description", VStr d)]
  \/ v = VDict [("description", VStr d); ("title", VStr t)].

(** The stored text [data] cannot be read as a record with a title and a
    description: it is not JSON, or what it parses to lacks one of them. *)
Definition unreadable_record {rt : PyRuntime} (data : string) : Prop :=
  forall v, json_loads data = Some v ->
    ~ (has_field "title" v /\ has_field "description" v).

(** The page shows [text] as the content of an element [tag]. *)
Definition shows (tag text page : string) : Prop :=
  exists before after,
    page = before +:+ "<" +:+ tag +:+ ">" +:+ text +:+ "</" +:+ tag +:+ ">" +:+ after.

(** The page embeds the image that the route [/image/<name>] serves. *)
Definition embeds_image (name page : string) : Prop :=
  exists before after,
    page = before +:+ "<img src=" +:+ dq +:+ "/image/" +:+ name +:+ dq +:+ after.

(** The response is the error fragment of [get_file], sent as an ordinary
    page. *)
Definition error_fragment (r : response) : Prop :=
  exists message,
    r = Response 200 (Html ("<p>Error fetching file: " +:+ message +:+ "</p>")).

(** What the [try] block of [get_file] makes of the stored record [data]
    once both objects are fetched: lines 161-170. *)
Definition view_of {rt : PyRuntime} (name data : string) : exn + response :=
  match json_loads data with
  | None => inl (JSONDecodeError data)
  | Some metadata =>
      match getitem metadata "title" with
      | inl e => inl e
      | inr t =>
          match getitem metadata "description" with
          | inl e => inl e
          | inr d => inr (flask_str (image_html (py_str t) name (py_str d)))
          end
      end
  end.

(** What the [try] block of [get_file] comes to as a function of the bucket
    when no external call faults (lemma [get_file_try_quiet]). *)
Definition retrieved {rt : PyRuntime} (bucket : gmap string string) (name : string)
  : exn + response :=
  match bucket !! name, bucket !! json_name name with
  | None, _ => inl (NotFound name)
  | Some _, None => inl (NotFound (json_name name))
  | Some _, Some data => view_of name data
  end.

(** The response of [get_file] for an outcome of its [try] block. *)
Definition answer {rt : PyRuntime} (x : exn + response) : response :=
  match x with
  | inl e => flask_str (error_html e)
  | inr r => r
  end.

(** The rows of the gallery for the images [a; b; c; ...]: two cells to a
    row, and a last row that is left open when the images are odd in
    number.  [rows_open] continues a row that holds one cell. *)
Fixpoint rows_of (images : list string) : string :=
  match images with
  | a :: b :: rest =>
      "<tr>" +:+ cell_html a +:+ cell_html b +:+ "</tr>" +:+ rows_of rest
  | [a] => "<tr>" +:+ cell_html a
  | [] => EmptyString
  end.

Definition rows_open (images : list string) : string :=
  match images with
  | b :: rest => cell_html b +:+ "</tr>" +:+ rows_of rest
  | [] => EmptyString
  end.

(** ** Concrete runs, on the reference runtime *)

Module Scenario.

Definition cat_text : string :=
  "{" +:+ dq +:+ "title" +:+ dq +:+ ":" +:+ dq +:+ "Cat" +:+ dq +:+ "," +:+
  dq +:+ "description" +:+ dq +:+ ":" +:+ dq +:+ "A cat." +:+ dq +:+ "}".

Definition cat_record : value :=
  VDict [("title", VStr "Cat"); ("description", VStr "A cat.")].

Definition cat_file : file_storage := FileStorage "cat.jpg" "JFIF-bytes-of-a-cat".
Definition dog_file : file_storage := FileStorage "dog.jpeg" "JFIF-bytes-of-a-dog".
Definition png_file : file_storage := FileStorage "photo.png" "PNG-bytes".

(** The part that a browser sends when the form is submitted with no file
    chosen: the file name is empty. *)
Definition nameless_file : file_storage := FileStorage "" "".

(** An empty bucket and staging directory; the service answers [text];
    the calls fault as [faults] says. *)
Definition fresh (text : string) (faults : list bool) : world :=
  World ∅ ∅ text faults [].

Definition upload_ref (file : file_storage) (w : world) : (exn + response) * world :=
  upload (rt := RefRuntime.runtime) (Request (Some file)) w.

Definition get_file_ref (name : string) (w : world) : (exn + response) * world :=
  get_file (rt := RefRuntime.runtime) name w.

(** The world after [cat.jpg] was uploaded without a fault. *)
Definition cat_published : world := snd (upload_ref cat_file (fresh cat_text [])).

End Scenario.

(** More runs, which start from the bucket that holds [cat.jpg]. *)
Module Replay.

Definition cat_again_file : file_storage :=
  FileStorage "cat.jpg" "JFIF-bytes-of-a-new-cat".
Definition cat_jpeg_file : file_storage :=
  FileStorage "cat.jpeg" "JFIF-bytes-of-another-cat".
Definition bak_file : file_storage :=
  FileStorage "cat.jpg.bak" "JFIF-bytes-of-a-backup".

(** The bucket after [cat.jpg] was published, an empty staging area, the
    reply [text] and the faults [faults]. *)
Definition after_cat (text : string) (faults : list bool) : world :=
  World (gcs Scenario.cat_published) ∅ text faults [].

(** A bucket that holds an image without its record, while a record of
    that name from some earlier time is still staged. *)
Definition orphan : world :=
  World {["cat.jpg" := "JFIF-bytes-of-a-cat"]} {["files/cat.json" := "stale-record"]}
        "" [] [].

(** A reply that is valid JSON and no caption record. *)
Definition list_text : string := "[1, 2]".
Definition list_value : value := VList [VInt 1; VInt 2].

(** A reply that is valid JSON with three fields, of which the title and
    the description are no strings. *)
Definition odd_text : string :=
  "{" +:+ dq +:+ "title" +:+ dq +:+ ": 1, " +:+ dq +:+ "description" +:+ dq +:+
  ": null, " +:+ dq +:+ "extra" +:+ dq +:+ ": true}".
Definition odd_value : value :=
  VDict [("title", VInt 1); ("description", VNone); ("extra", VBool true)].

Definition cat_twice : world :=
  snd (Scenario.upload_ref cat_again_file (after_cat "" [])).
Definition cat_and_jpeg : world :=
  snd (Scenario.upload_ref cat_jpeg_file (after_cat "" [])).
Definition odd_published : world :=
  snd (Scenario.upload_ref Scenario.cat_file (Scenario.fresh odd_text [])).
Definition list_published : world :=
  snd (Scenario.upload_ref Scenario.cat_file (Scenario.fresh list_text [])).

End Replay.

(** * Properties *)

(** ** Facts about [replace] and [json_name] *)

Section StrFacts.

Lemma append_cons (c : ascii) (s t : string) :
  String c s +:+ t = String c (s +:+ t).
Proof. reflexivity. Qed.

Lemma append_empty_l (s : string) : "" +:+ s = s.
Proof. reflexivity. Qed.

Lemma append_empty_r (s : string) : s +:+ "" = s.
Proof. induction s as [|c s IH]; [done|]. by rewrite append_cons, IH. Qed.

Lemma append_assoc (a b c : string) : (a +:+ b) +:+ c = a +:+ (b +:+ c).
Proof. induction a as [|x a IH]; [done|]. by rewrite !append_cons, IH. Qed.

Lemma startswith_refl (p : string) : Str.startswith p p = true.
Proof.
  induction p as [|a p IH]; cbn; [done|]. by rewrite Ascii.eqb_refl, IH.
Qed.

Lemma replace_from_exhaust (old new s : string) (k : nat) :
  (String.length s <= k)%nat -> Str.replace_from old new k s = "".
Proof.
  revert k. induction s as [|c s IH]; intros k Hk; [done|].
  destruct k as [|k]; cbn in *; [lia|]. apply IH. lia.
Qed.

(** Replacing a pattern that does not occur changes nothing. *)
Lemma replace_absent (old new s : string) :
  Str.contains old s = false -> Str.replace old new s = s.
Proof.
  unfold Str.replace. induction s as [|c s IH]; intros H; [done|].
  cbn [Str.contains] in H. apply orb_false_iff in H as [H1 H2].
  cbn [Str.replace_from]. rewrite H1. by rewrite IH.
Qed.

Lemma replace_whole (a : ascii) (p new : string) :
  Str.replace (String a p) new (String a p) = new.
Proof.
  unfold Str.replace. cbn [Str.replace_from].
  rewrite startswith_refl. cbn [String.length Nat.pred].
  rewrite replace_from_exhaust by lia. apply append_empty_r.
Qed.

(** A pattern without the character [a] cannot reach across a junction
    that is followed by [a]. *)
Lemma startswith_before (a : ascii) (p s t : string) :
  has_char a p = false ->
  Str.startswith p (s +:+ String a t) = Str.startswith p s.
Proof.
  revert s. induction p as [|b p IH]; intros s Hp; [by destruct s|].
  cbn [has_char] in Hp. apply orb_false_iff in Hp as [Hab Hp].
  destruct s as [|c s].
  - rewrite append_empty_l. cbn. by rewrite (Ascii.eqb_sym b a), Hab.
  - rewrite append_cons. cbn [Str.startswith]. by rewrite IH.
Qed.

Lemma startswith_junction (a : ascii) (p s t : string) :
  has_char a p = false -> s <> "" ->
  Str.startswith (String a p) (s +:+ String a t) = Str.startswith (String a p) s.
Proof.
  intros Hp Hs. destruct s as [|c s]; [done|].
  rewrite append_cons. cbn [Str.startswith]. by rewrite startswith_before.
Qed.

Lemma contains_junction (a : ascii) (p s t : string) :
  has_char a p = false ->
  Str.contains (String a p) (s +:+ String a t) =
  Str.contains (String a p) s || Str.contains (String a p) (String a t).
Proof.
  intros Hp. induction s as [|c s IH]; [done|].
  rewrite append_cons. cbn [Str.contains].
  rewrite IH, <- append_cons, startswith_junction by done.
  by rewrite orb_assoc.
Qed.

(** A trailing occurrence that is the only one is the one replaced. *)
Lemma replace_suffix (a : ascii) (p new s : string) :
  has_char a p = false ->
  Str.contains (String a p) s = false ->
  Str.replace (String a p) new (s +:+ String a p) = s +:+ new.
Proof.
  intros Hp. induction s as [|c s IH]; intros Hs.
  - apply replace_whole.
  - cbn [Str.contains] in Hs. apply orb_false_iff in Hs as [H1 H2].
    unfold Str.replace in *. rewrite !append_cons. cbn [Str.replace_from].
    rewrite <- append_cons, startswith_junction, H1 by done.
    by rewrite IH.
Qed.

(** [replace] keeps a leading slash, and makes none, when the pattern
    and its replacement start with a dot. *)
Lemma replace_leading_slash (p new s : string) :
  Str.startswith "/" (Str.replace (String "." p) (String "." new) s)
  = Str.startswith "/" s.
Proof.
  unfold Str.replace. destruct s as [|c s]; [done|].
  cbn [Str.replace_from].
  destruct (Str.startswith (String "." p) (String c s)) eqn:E; [|done].
  cbn [Str.startswith] in E. apply andb_true_iff in E as [E _].
  apply Ascii.eqb_eq in E as <-. done.
Qed.

Lemma json_name_leading_slash (s : string) :
  Str.startswith "/" (json_name s) = Str.startswith "/" s.
Proof. unfold json_name. by rewrite !replace_leading_slash. Qed.

Lemma local_path_cases (name : string) :
  os_path_join LOCAL_DIR name =
  if Str.startswith "/" name then name else "files/" +:+ name.
Proof. unfold os_path_join. by destruct (Str.startswith "/" name). Qed.

(** The staged metadata path is the staging path of the metadata key. *)
Lemma json_name_join (name : string) :
  json_name (os_path_join LOCAL_DIR name) = os_path_join LOCAL_DIR (json_name name).
Proof.
  rewrite !local_path_cases, json_name_leading_slash.
  by destruct (Str.startswith "/" name).
Qed.

Lemma os_path_join_inj (a b : string) :
  os_path_join LOCAL_DIR a = os_path_join LOCAL_DIR b -> a = b.
Proof.
  rewrite !local_path_cases.
  destruct (Str.startswith "/" a) eqn:Ha, (Str.startswith "/" b) eqn:Hb; intros H.
  - done.
  - subst a. done.
  - subst b. done.
  - by injection H.
Qed.

Lemma json_name_absent (s : string) :
  Str.contains ".jpg" s = false -> Str.contains ".jpeg" s = false ->
  json_name s = s.
Proof.
  intros H1 H2. unfold json_name. by rewrite (replace_absent _ _ _ H2), replace_absent.
Qed.

End StrFacts.

(** ** The reference runtime reads back the caption records it writes *)

Section RefRuntimeFacts.

Import RefRuntime.

Lemma parse_chars_escape_char (c : ascii) (tail : string) :
  parse_chars (escape_char c +:+ tail) = push c (parse_chars tail).
Proof. destruct c as [[] [] [] [] [] [] [] []]; reflexivity. Qed.

Lemma parse_chars_escape (s rest : string) :
  parse_chars (escape s +:+ dq +:+ rest) = Some (s, rest).
Proof.
  induction s as [|c s IH]; [reflexivity|].
  cbn [escape]. rewrite append_assoc, parse_chars_escape_char, IH. reflexivity.
Qed.

Lemma parse_value_quote (n : nat) (s rest : string) :
  parse_value (S n) (quote s +:+ rest) = Some (VStr s, rest).
Proof.
  unfold quote. rewrite !append_assoc.
  change (match parse_chars (escape s +:+ dq +:+ rest) with
          | Some (str, r) => Some (VStr str, r)
          | None => None
          end = Some (VStr s, rest)).
  by rewrite parse_chars_escape.
Qed.

Lemma dumps_two_fields (k1 k2 a b : string) :
  dumps (VDict [(k1, VStr a); (k2, VStr b)]) =
  "{" +:+ quote k1 +:+ ": " +:+ quote a +:+ ", " +:+
  quote k2 +:+ ": " +:+ quote b +:+ "}".
Proof.
  unfold dumps. cbn [map join fst snd].
  rewrite !append_assoc. reflexivity.
Qed.

(** One member of an object, as [dumps] writes it, is read as it was
    written. *)
Lemma parse_members_field (n : nat) (acc : list (string * value)) (k a rest : string) :
  parse_members (S (S n)) acc (quote k +:+ ": " +:+ quote a +:+ rest) =
  match skip_ws rest with
  | String ","%char r4 => parse_members (S n) (dict_set k (VStr a) acc) (skip_ws r4)
  | String "}"%char r => Some (dict_set k (VStr a) acc, r)
  | _ => None
  end.
Proof.
  unfold quote at 1. rewrite !append_assoc.
  match goal with |- _ = ?R =>
    change (match parse_chars (escape k +:+ dq +:+ ": " +:+ quote a +:+ rest) with
            | Some (k0, r1) =>
                match skip_ws r1 with
                | String ":"%char r2 =>
                    match parse_value (S n) (skip_ws r2) with
                    | Some (v, r3) =>
                        match skip_ws r3 with
                        | String ","%char r4 =>
                            parse_members (S n) (dict_set k0 v acc) (skip_ws r4)
                        | String "}"%char r => Some (dict_set k0 v acc, r)
                        | _ => None
                        end
                    | None => None
                    end
                | _ => None
                end
            | None => None
            end = R)
  end.
  rewrite parse_chars_escape.
  match goal with |- _ = ?R =>
    change (match parse_value (S n) (quote a +:+ rest) with
            | Some (v, r3) =>
                match skip_ws r3 with
                | String ","%char r4 =>
                    parse_members (S n) (dict_set k v acc) (skip_ws r4)
                | String "}"%char r => Some (dict_set k v acc, r)
                | _ => None
                end
            | None => None
            end = R)
  end.
  by rewrite parse_value_quote.
Qed.

Lemma parse_two_fields (n : nat) (k1 k2 a b : string) :
  k1 <> k2 ->
  parse_value (S (S (S (S n)))) (dumps (VDict [(k1, VStr a); (k2, VStr b)]))
  = Some (VDict [(k1, VStr a); (k2, VStr b)], EmptyString).
Proof.
  intros Hk. rewrite dumps_two_fields.
  change (match parse_members (S (S (S n))) []
                  (quote k1 +:+ ": " +:+ quote a +:+ ", " +:+
                   quote k2 +:+ ": " +:+ quote b +:+ "}") with
          | Some (fields, rest) => Some (VDict fields, rest)
          | None => None
          end = Some (VDict [(k1, VStr a); (k2, VStr b)], EmptyString)).
  rewrite parse_members_field.
  change (match parse_members (S (S n)) [(k1, VStr a)]
                  (quote k2 +:+ ": " +:+ quote b +:+ "}") with
          | Some (fields, rest) => Some (VDict fields, rest)
          | None => None
          end = Some (VDict [(k1, VStr a); (k2, VStr b)], EmptyString)).
  rewrite parse_members_field.
  change (Some (VDict (if String.eqb k2 k1 then [(k1, VStr b)]
                       else [(k1, VStr a); (k2, VStr b)]), EmptyString)
          = Some (VDict [(k1, VStr a); (k2, VStr b)], EmptyString)).
  destruct (String.eqb_spec k2 k1) as [Heq|_]; [by destruct Hk|done].
Qed.

(** [loads (dumps v) = v] for every object [v] with two string fields. *)
Lemma loads_dumps_two_fields (k1 k2 a b : string) :
  k1 <> k2 ->
  loads (dumps (VDict [(k1, VStr a); (k2, VStr b)]))
  = Some (VDict [(k1, VStr a); (k2, VStr b)]).
Proof.
  intros Hk. unfold loads.
  assert (skip_ws (dumps (VDict [(k1, VStr a); (k2, VStr b)]))
          = dumps (VDict [(k1, VStr a); (k2, VStr b)])) as ->.
  { by rewrite dumps_two_fields. }
  assert (exists n,
            (2 * String.length (dumps (VDict [(k1, VStr a); (k2, VStr b)])) + 2)%nat
            = S (S (S (S n)))) as [n ->].
  { rewrite dumps_two_fields.
    match goal with |- context [String.length ("{" +:+ ?X)] =>
      change (String.length ("{" +:+ X)) with (S (String.length X));
      exists (2 * String.length X)%nat
    end. lia. }
  by rewrite parse_two_fields.
Qed.

Lemma loads_dumps_caption_doc (t d : string) :
  loads (dumps (caption_doc t d)) = Some (caption_doc t d).
Proof. by apply loads_dumps_two_fields. Qed.

(** The codec reads back every record of the expected structure. *)
Lemma loads_dumps_two_field_record (t d : string) (v : value) :
  two_field_record t d v -> loads (dumps v) = Some v.
Proof. intros [-> | ->]; by apply loads_dumps_two_fields. Qed.

(** A reply that the codec reads is the caption that [upload] stores. *)
Lemma caption_of_text_reference (text : string) (v : value) :
  loads (Str.strip text) = Some v ->
  caption_of_text (rt := runtime) text = inr v.
Proof.
  intros Hv. unfold caption_of_text.
  destruct (String.eqb_spec (Str.strip text) "") as [Heq|_].
  - rewrite Heq in Hv. discriminate Hv.
  - cbn [json_loads runtime]. by rewrite Hv.
Qed.

End RefRuntimeFacts.

(** C2, as stated, fails: an extension-like substring that is not the
    trailing extension is replaced as well, so the key of [a.jpg.jpg] is
    not [a.jpg.json], and a name with no trailing image extension can
    still be changed. *)
Lemma json_name_not_extension_swap :
  json_name ("a.jpg" +:+ ".jpg") <> "a.jpg" +:+ ".json"
  /\ json_name ("a.jpg" +:+ ".jpg") = "a.json.json"
  /\ json_name "x.jpgs.png" = "x.jsons.png".
Proof.
  split; [intros H; vm_compute in H; discriminate H | split; reflexivity].
Qed.

(** C2, amended: the key is [json_name] of the file name, which replaces
    every occurrence of [.jpeg] and then of [.jpg]; when the name ends in
    [.jpg] or [.jpeg] and the part before it contains neither, the key is
    the name with that trailing extension swapped for [.json]. *)
Theorem json_name_trailing_extension (stem : string) :
  Str.contains ".jpg" stem = false ->
  Str.contains ".jpeg" stem = false ->
  json_name (stem +:+ ".jpg") = stem +:+ ".json"
  /\ json_name (stem +:+ ".jpeg") = stem +:+ ".json".
Proof.
  intros Hjpg Hjpeg. unfold json_name. split.
  - rewrite (replace_absent ".jpeg").
    + by apply (replace_suffix "." "jpg").
    + by rewrite (contains_junction "." "jpeg"), Hjpeg.
  - rewrite (replace_suffix "." "jpeg") by done.
    apply replace_absent.
    by rewrite (contains_junction "." "jpg"), Hjpg.
Qed.

Lemma json_name_trailing_extension_photo :
  json_name ("photo" +:+ ".jpg") = "photo" +:+ ".json"
  /\ json_name ("photo" +:+ ".jpeg") = "photo" +:+ ".json".
Proof. apply (json_name_trailing_extension "photo"); reflexivity. Defined.

(** ** How the helpers run *)

Ltac world_simpl :=
  cbn [fst snd gcs fs reply script log set_fs set_gcs tick hd tl] in *.

Section Runs.

Context {rt : PyRuntime}.

Lemma file_save_eq (file : file_storage) (p : string) (w : world) :
  file_save file p w =
  if hd false (script w) then (inl (OSError p), tick (CSave p) w)
  else (inr tt, set_fs (<[p := stream file]> (fs w)) (tick (CSave p) w)).
Proof.
  unfold file_save, bind, external, write_file.
  by destruct (hd false (script w)).
Qed.

Lemma upload_to_gcs_eq (b p blob : string) (w : world) :
  upload_to_gcs b p blob w =
  if hd false (script w)
  then (inl (GoogleAPIError blob), tick (CGcsUpload p blob) w)
  else match fs w !! p with
       | Some data =>
           (inr tt, set_gcs (<[blob := data]> (gcs w)) (tick (CGcsUpload p blob) w))
       | None => (inl (FileNotFoundError p), tick (CGcsUpload p blob) w)
       end.
Proof.
  unfold upload_to_gcs, blob_upload_from_filename, bind, external, read_file.
  destruct (hd false (script w)); [done|].
  cbn [fs tick]. by destruct (fs w !! p).
Qed.

Lemma generate_image_caption_eq (p : string) (w : world) :
  generate_image_caption p w =
  if hd false (script w) then (inl GeminiError, tick (CGeminiUpload p) w)
  else match fs w !! p with
       | None => (inl (FileNotFoundError p), tick (CGeminiUpload p) w)
       | Some _ =>
           if hd false (tl (script w))
           then (inl GeminiError, tick CGenerate (tick (CGeminiUpload p) w))
           else (caption_of_text (reply w),
                 tick CGenerate (tick (CGeminiUpload p) w))
       end.
Proof.
  unfold generate_image_caption, upload_to_gemini, generate_content_text,
    bind, external, read_file, lift, ret.
  destruct (hd false (script w)); [done|]. cbn [fs tick].
  destruct (fs w !! p); [|done]. cbn [script tick].
  by destruct (hd false (tl (script w))).
Qed.

Lemma dump_to_file_eq (p : string) (v : value) (w : world) :
  dump_to_file p v w =
  if hd false (script w) then (inl (OSError p), tick (COpenWrite p) w)
  else (inr tt, set_fs (<[p := json_dumps v]> (fs w)) (tick (COpenWrite p) w)).
Proof.
  unfold dump_to_file, bind, external, write_file.
  by destruct (hd false (script w)).
Qed.

Lemma os_remove_eq (p : string) (w : world) :
  os_remove p w =
  if hd false (script w) then (inl (OSError p), tick (CRemove p) w)
  else match fs w !! p with
       | Some _ => (inr tt, set_fs (delete p (fs w)) (tick (CRemove p) w))
       | None => (inl (FileNotFoundError p), tick (CRemove p) w)
       end.
Proof.
  unfold os_remove, bind, external, read_file.
  destruct (hd false (script w)); [done|].
  cbn [fs tick]. by destruct (fs w !! p).
Qed.

Lemma download_from_gcs_eq (b name : string) (w : world) :
  download_from_gcs b name w =
  let p := os_path_join LOCAL_DIR name in
  let c := CGcsDownload name p in
  if hd false (script w)
  then (inl (GoogleAPIError name), set_fs (<[p := ""]> (fs w)) (tick c w))
  else match gcs w !! name with
       | Some data => (inr p, set_fs (<[p := data]> (fs w)) (tick c w))
       | None => (inl (NotFound name), set_fs (delete p (fs w)) (tick c w))
       end.
Proof.
  unfold download_from_gcs, blob_download_to_filename, bind, external,
    write_file, ret.
  cbn [script set_fs tick gcs fs reply log].
  destruct (hd false (script w)); [done|].
  destruct (gcs w !! name).
  - by rewrite insert_insert_eq.
  - by rewrite delete_insert_eq.
Qed.

Lemma load_from_file_eq (p : string) (w : world) :
  load_from_file p w =
  if hd false (script w) then (inl (OSError p), tick (COpenRead p) w)
  else match fs w !! p with
       | Some data =>
           (match json_loads data with
            | Some metadata => inr metadata
            | None => inl (JSONDecodeError data)
            end, tick (COpenRead p) w)
       | None => (inl (FileNotFoundError p), tick (COpenRead p) w)
       end.
Proof.
  unfold load_from_file, bind, external, read_file, ret, raise.
  destruct (hd false (script w)); [done|]. cbn [fs tick].
  destruct (fs w !! p) as [data|]; [|done]. by destruct (json_loads data).
Qed.

End Runs.

(** One helper of the current run is replaced by its outcome. *)
Ltac run_step :=
  first [ rewrite file_save_eq | rewrite upload_to_gcs_eq
        | rewrite generate_image_caption_eq | rewrite dump_to_file_eq
        | rewrite os_remove_eq | rewrite download_from_gcs_eq
        | rewrite load_from_file_eq ];
  world_simpl.

(** Opens the [try] block of [upload] on a request that carries a file. *)
Ltac open_upload :=
  unfold upload, try_except, upload_try, request_file;
  cbn [form_file]; unfold bind, ret.

(** The run has raised: every branch that answers with an error is closed. *)
Ltac failed := intros [= <- <-]; done.

(** The run stopped after [n] calls with the staging area in state [side]. *)
Ltac stopped n side :=
  eexists _, n, _; split; [done|]; split; [lia|];
  world_simpl; rewrite <- ?app_assoc; split; [done|]; side.

(** ** Runs of [upload] *)

Section UploadRuns.

Context {rt : PyRuntime}.
Variable file : file_storage.

Let name := filename file.
Let local_path := os_path_join LOCAL_DIR name.
Let json_path := json_name local_path.

(** A run whose [try] block returns has made all eight calls. *)
Lemma upload_try_ok (w w' : world) (r : response) :
  upload_try (Request (Some file)) w = (inr r, w') ->
  exists metadata,
    caption_of_text (reply w) = inr metadata
    /\ r = redirect ("/files/" +:+ name)
    /\ json_path <> local_path
    /\ gcs w' = <[json_name name := json_dumps metadata]>
                  (<[name := stream file]> (gcs w))
    /\ fs w' = delete json_path (delete local_path
                 (<[json_path := json_dumps metadata]>
                    (<[local_path := stream file]> (fs w))))
    /\ log w' = log w ++ upload_calls name.
Proof.
  unfold upload_try, request_file. cbn [form_file]. unfold bind, ret.
  fold name local_path json_path.
  run_step. destruct (hd false (script w)); [failed|].
  run_step. destruct (hd false (tl (script w))); [failed|].
  rewrite lookup_insert_eq.
  run_step. destruct (hd false (tl (tl (script w)))); [failed|].
  rewrite lookup_insert_eq.
  destruct (hd false (tl (tl (tl (script w))))); [failed|].
  destruct (caption_of_text (reply w)) as [e|metadata]; [failed|].
  run_step. destruct (hd false _); [failed|].
  run_step. destruct (hd false _); [failed|].
  rewrite lookup_insert_eq.
  run_step. destruct (hd false _); [failed|].
  destruct (decide (json_path = local_path)) as [Heq|Hne].
  - rewrite Heq, lookup_insert_eq. run_step.
    destruct (hd false _); [failed|].
    rewrite lookup_delete_eq. failed.
  - rewrite lookup_insert_ne, lookup_insert_eq by done. run_step.
    destruct (hd false _); [failed|].
    rewrite lookup_delete_ne, lookup_insert_eq by done.
    intros [= <- <-]. exists metadata. world_simpl.
    repeat split; try done.
    rewrite <- !app_assoc. done.
Qed.

(** Without a fault, with a caption text that is accepted and a derived key
    that differs from the file name, the run answers with the redirect. *)
Lemma upload_succeeds (w : world) (metadata : value) :
  script w = [] ->
  caption_of_text (reply w) = inr metadata ->
  json_name name <> name ->
  exists w',
    upload (Request (Some file)) w = (inr (redirect ("/files/" +:+ name)), w').
Proof.
  intros Hs Hcap Hkey.
  assert (json_path <> local_path) as Hne.
  { unfold json_path, local_path. rewrite json_name_join.
    intros Heq. by apply os_path_join_inj in Heq. }
  destruct w as [g f txt s l]. cbn [script reply] in Hs, Hcap. subst s.
  open_upload. fold name local_path json_path.
  do 2 run_step. rewrite lookup_insert_eq.
  run_step. rewrite lookup_insert_eq, Hcap.
  do 2 run_step. rewrite lookup_insert_eq.
  run_step. rewrite lookup_insert_ne, lookup_insert_eq by done.
  run_step. rewrite lookup_delete_ne, lookup_insert_eq by done.
  eauto.
Qed.

(** [upload] always answers: with the redirect, or with the error body. *)
Lemma upload_returns (req : request) (w : world) :
  exists r w', upload req w = (inr r, w')
    /\ (upload_try req w = (inr r, w')
        \/ exists e, upload_try req w = (inl e, w') /\ r = json_error e).
Proof.
  unfold upload, try_except, ret.
  destruct (upload_try req w) as [[e|r] w']; eauto 10.
Qed.

Lemma upload_success (w w' : world) (r : response) :
  upload (Request (Some file)) w = (inr r, w') ->
  status r = 302 ->
  upload_try (Request (Some file)) w = (inr r, w').
Proof.
  intros H Hr.
  destruct (upload_returns (Request (Some file)) w) as (r0 & w0 & H0 & Hcase).
  rewrite H in H0. injection H0 as <- <-.
  destruct Hcase as [?|(e & _ & ->)]; [done|discriminate Hr].
Qed.

(** An exception during the first [m] calls, [m] at most 6: the run stops
    after [n] calls, [n] at most [m], and answers with the error body.
    Nothing was deleted from the staging area. *)
Lemma upload_aborted (w : world) (m : nat) :
  (m <= 6)%nat -> raises_within m w ->
  exists e n w',
    upload (Request (Some file)) w = (inr (json_error e), w')
    /\ (1 <= n <= m)%nat
    /\ log w' = log w ++ take n (upload_calls name)
    /\ ((n = 1%nat /\ hd false (script w) = true /\ fs w' = fs w)
        \/ fs w' = <[local_path := stream file]> (fs w)
        \/ exists text,
             fs w' = <[json_path := text]> (<[local_path := stream file]> (fs w))).
Proof.
  intros Hm [(k & Hk & rest & Hs)|[Hm4 [e0 He0]]].
  - destruct w as [g f r s l]. cbn [script] in Hs. subst s.
    open_upload. fold name local_path json_path.
    destruct k as [|[|[|[|[|[|k]]]]]]; [ | | | | | | lia]; cbn [repeat app].
    + run_step. stopped 1%nat ltac:(by left).
    + do 2 run_step. stopped 2%nat ltac:(by right; left).
    + do 2 run_step. rewrite lookup_insert_eq. run_step.
      stopped 3%nat ltac:(by right; left).
    + do 2 run_step. rewrite lookup_insert_eq. run_step.
      rewrite lookup_insert_eq. stopped 4%nat ltac:(by right; left).
    + do 2 run_step. rewrite lookup_insert_eq. run_step.
      rewrite lookup_insert_eq.
      destruct (caption_of_text r) as [e|metadata].
      * stopped 4%nat ltac:(by right; left).
      * run_step. stopped 5%nat ltac:(by right; left).
    + do 2 run_step. rewrite lookup_insert_eq. run_step.
      rewrite lookup_insert_eq.
      destruct (caption_of_text r) as [e|metadata].
      * stopped 4%nat ltac:(by right; left).
      * do 2 run_step. stopped 6%nat ltac:(right; right; eauto).
  - open_upload. fold name local_path json_path.
    run_step. destruct (hd false (script w)) eqn:H0.
    { stopped 1%nat ltac:(by left). }
    run_step. destruct (hd false (tl (script w))).
    { stopped 2%nat ltac:(by right; left). }
    rewrite lookup_insert_eq. run_step.
    destruct (hd false (tl (tl (script w)))).
    { stopped 3%nat ltac:(by right; left). }
    rewrite lookup_insert_eq, He0.
    destruct (hd false (tl (tl (tl (script w)))));
      stopped 4%nat ltac:(by right; left).
Qed.

(** After a successful run both objects are in the bucket. *)
Lemma upload_stored_after_success (w w' : world) (r : response) :
  upload (Request (Some file)) w = (inr r, w') ->
  status r = 302 ->
  exists metadata,
    caption_of_text (reply w) = inr metadata
    /\ gcs w' !! name = Some (stream file)
    /\ gcs w' !! json_name name = Some (json_dumps metadata).
Proof.
  intros Hrun Hok.
  apply upload_success in Hrun; [|done].
  apply upload_try_ok in Hrun as (metadata & Hcap & _ & Hpath & Hgcs & _ & _).
  assert (json_name name <> name) as Hkey.
  { intros Heq. apply Hpath. unfold json_path, local_path.
    by rewrite json_name_join, Heq. }
  exists metadata. split; [done|]. rewrite Hgcs. split.
  - by rewrite lookup_insert_ne, lookup_insert_eq.
  - apply lookup_insert_eq.
Qed.

End UploadRuns.

(** ** Fields of a parsed record *)

Section Records.

Lemma assoc_elem {A : Type} (k : string) (d : list (string * A)) (x : A) :
  assoc k d = Some x -> (k, x) ∈ d.
Proof.
  induction d as [|[k' y] d IH]; cbn [assoc]; [done|].
  destruct (String.eqb_spec k k') as [->|Hne].
  - intros [= ->]. apply list_elem_of_here.
  - intros H. apply list_elem_of_further. by apply IH.
Qed.

Lemma assoc_absent {A : Type} (k : string) (d : list (string * A)) :
  assoc k d = None -> k ∉ d.*1.
Proof.
  induction d as [|[k' y] d IH]; cbn [assoc fmap list_fmap fst].
  - intros _ H. by apply elem_of_nil in H.
  - destruct (String.eqb_spec k k') as [->|Hne]; [done|].
    intros H Hin. apply elem_of_cons in Hin as [Heq|Hin]; [done|]. by apply IH.
Qed.

(** [v[k]] returns a value bound to [k] in the object [v]. *)
Lemma getitem_returns (v : value) (k : string) (x : value) :
  getitem v k = inr x -> exists fields, v = VDict fields /\ (k, x) ∈ fields.
Proof.
  destruct v as [| | | | |fields]; try done. cbn [getitem].
  destruct (assoc k fields) as [y|] eqn:E; [|done].
  intros [= <-]. exists fields. split; [done|]. by apply assoc_elem.
Qed.

(** [v[k]] raises when [v] is no object or has no field [k]. *)
Lemma getitem_raises (v : value) (k : string) (e : exn) :
  getitem v k = inl e -> ~ has_field k v.
Proof.
  intros H (fields & -> & Hin). cbn [getitem] in H.
  destruct (assoc k fields) as [y|] eqn:E; [done|].
  by apply assoc_absent in E.
Qed.

Lemma elem_has_field (k : string) (x : value) (fields : list (string * value)) :
  (k, x) ∈ fields -> has_field k (VDict fields).
Proof.
  intros H. exists fields. split; [done|].
  apply list_elem_of_fmap. by exists (k, x).
Qed.

End Records.

(** ** Runs of [get_file] *)

Section RetrievalRuns.

Context {rt : PyRuntime}.
Variable name : string.

Let json_key := json_name name.
Let json_path := os_path_join LOCAL_DIR json_key.

(** The [try] block returns nothing but the composed page. *)
Lemma get_file_try_page (w w' : world) (r : response) :
  get_file_try name w = (inr r, w') ->
  exists t d, r = flask_str (image_html t name d).
Proof.
  unfold get_file_try, bind, ret, lift.
  destruct (download_from_gcs _ name w) as [[e|p1] w1]; [done|].
  destruct (download_from_gcs _ _ w1) as [[e|p2] w2]; [done|].
  destruct (load_from_file p2 w2) as [[e|metadata] w3]; [done|].
  destruct (getitem metadata "title") as [e|t]; [done|].
  destruct (getitem metadata "description") as [e|d]; [done|].
  intros [= <- <-]. eauto.
Qed.

(** [get_file] always answers, and always with status 200. *)
Lemma get_file_returns (w : world) :
  exists r w', get_file name w = (inr r, w')
    /\ status r = 200
    /\ (get_file_try name w = (inr r, w')
        \/ exists e, get_file_try name w = (inl e, w')
                     /\ r = flask_str (error_html e)).
Proof.
  unfold get_file, try_except, ret.
  destruct (get_file_try name w) as [[e|r] w'] eqn:E.
  - eexists _, _. split; [done|]. split; [done|]. right. eauto.
  - eexists _, _. split; [done|].
    destruct (get_file_try_page _ _ _ E) as (t & d & ->). split; [done|]. by left.
Qed.

(** Without an external fault the [try] block is decided by the bucket,
    which it leaves as it was. *)
Lemma get_file_try_quiet (w : world) :
  script w = [] ->
  exists w',
    gcs w' = gcs w /\ script w' = []
    /\ get_file_try name w = (retrieved (gcs w) name, w')
    /\ (forall data, is_Some (gcs w !! name) -> gcs w !! json_key = Some data ->
        fs w' !! json_path = Some data).
Proof.
  destruct w as [g f r s l]. cbn [script]. intros ->.
  unfold retrieved, get_file_try, bind, ret, lift. fold json_key. cbn [gcs].
  run_step. destruct (g !! name) as [img|] eqn:Himg.
  2:{ eexists. world_simpl. repeat split; try done; by intros data [? [=]]. }
  run_step. fold json_path. destruct (g !! json_key) as [data|] eqn:Hdata.
  2:{ eexists. world_simpl. repeat split; done. }
  run_step. rewrite lookup_insert_eq. unfold view_of.
  destruct (json_loads data) as [metadata|].
  2:{ eexists. world_simpl. repeat split; try done;
      intros ? _ [= <-]; apply lookup_insert_eq. }
  destruct (getitem metadata "title") as [e|t].
  { eexists. world_simpl. repeat split; try done;
    intros ? _ [= <-]; apply lookup_insert_eq. }
  destruct (getitem metadata "description") as [e|d].
  { eexists. world_simpl. repeat split; try done;
    intros ? _ [= <-]; apply lookup_insert_eq. }
  eexists. world_simpl. repeat split; try done;
  intros ? _ [= <-]; apply lookup_insert_eq.
Qed.

Lemma get_file_quiet (w : world) :
  script w = [] ->
  exists w',
    gcs w' = gcs w /\ script w' = []
    /\ get_file name w = (inr (answer (retrieved (gcs w) name)), w')
    /\ (forall data, is_Some (gcs w !! name) -> gcs w !! json_key = Some data ->
        fs w' !! json_path = Some data).
Proof.
  intros Hs. destruct (get_file_try_quiet w Hs) as (w' & Hg & Hs' & Hrun & Hfs).
  exists w'. repeat split; try done.
  unfold get_file, try_except, ret. rewrite Hrun.
  by destruct (retrieved (gcs w) name).
Qed.

(** The stored record either has both fields, and the view is the page
    that shows a value of each, or it cannot be read as such a record, and
    the view is an exception. *)
Lemma view_of_cases (data : string) :
  (exists fields t d,
     json_loads data = Some (VDict fields)
     /\ (("title", t) ∈ fields) /\ (("description", d) ∈ fields)
     /\ view_of name data = inr (flask_str (image_html (py_str t) name (py_str d))))
  \/ (unreadable_record data /\ exists e, view_of name data = inl e).
Proof.
  unfold unreadable_record, view_of.
  destruct (json_loads data) as [metadata|]; [|right; split; [done|eauto]].
  destruct (getitem metadata "title") as [e|t] eqn:Ht.
  { right. split; [|eauto]. intros v [= <-] [H _]. by apply getitem_raises in Ht. }
  destruct (getitem metadata "description") as [e|d] eqn:Hd.
  { right. split; [|eauto]. intros v [= <-] [_ H]. by apply getitem_raises in Hd. }
  left. apply getitem_returns in Ht as (fields & -> & Ht).
  apply getitem_returns in Hd as (fields' & [= <-] & Hd). eauto 10.
Qed.

(** A record of the expected structure is shown with its two strings. *)
Lemma view_of_two_field (data : string) (v : value) (t d : string) :
  json_loads data = Some v -> two_field_record t d v ->
  view_of name data = inr (flask_str (image_html t name d)).
Proof. unfold view_of. by intros -> [-> | ->]. Qed.

(** Without an external fault, a name whose image is stored and whose
    record has the expected structure is answered with the page of its
    two strings. *)
Lemma get_file_of_record (w : world) (img data : string) (v : value) (t d : string) :
  script w = [] ->
  gcs w !! name = Some img ->
  gcs w !! json_key = Some data ->
  json_loads data = Some v ->
  two_field_record t d v ->
  exists w', get_file name w = (inr (flask_str (image_html t name d)), w').
Proof.
  intros Hs Himg Hdata Hv Hrec.
  destruct (get_file_quiet w Hs) as (w' & _ & _ & Hget & _).
  exists w'. rewrite Hget. f_equal. f_equal.
  unfold retrieved. fold json_key.
  by rewrite Himg, Hdata, (view_of_two_field data v t d).
Qed.

(** The composed page shows the title as a heading and the description as
    a paragraph, around the image of the file. *)
Lemma image_html_shows (t d : string) :
  shows "h2" t (image_html t name d)
  /\ shows "p" d (image_html t name d)
  /\ embeds_image name (image_html t name d).
Proof.
  unfold shows, embeds_image, image_html. split; [|split].
  - by exists (nl +:+ "        "), (nl +:+
      "        <img src=" +:+ dq +:+ "/image/" +:+ name +:+ dq +:+
      " width=" +:+ dq +:+ "500" +:+ dq +:+ ">" +:+ nl +:+
      "        <p>" +:+ d +:+ "</p>" +:+ nl +:+
      "        <p><a href=" +:+ dq +:+ "/" +:+ dq +:+ ">Back</a></p>" +:+ nl +:+
      "        ").
  - exists (nl +:+ "        <h2>" +:+ t +:+ "</h2>" +:+ nl +:+
      "        <img src=" +:+ dq +:+ "/image/" +:+ name +:+ dq +:+
      " width=" +:+ dq +:+ "500" +:+ dq +:+ ">" +:+ nl +:+ "        "),
      (nl +:+ "        <p><a href=" +:+ dq +:+ "/" +:+ dq +:+ ">Back</a></p>" +:+ nl +:+
       "        ").
    by rewrite !append_assoc.
  - exists (nl +:+ "        <h2>" +:+ t +:+ "</h2>" +:+ nl +:+ "        "),
      (" width=" +:+ dq +:+ "500" +:+ dq +:+ ">" +:+ nl +:+
       "        <p>" +:+ d +:+ "</p>" +:+ nl +:+
       "        <p><a href=" +:+ dq +:+ "/" +:+ dq +:+ ">Back</a></p>" +:+ nl +:+
       "        ").
    by rewrite !append_assoc.
Qed.

Lemma page_not_error (t d : string) : ~ error_fragment (flask_str (image_html t name d)).
Proof. unfold error_fragment, flask_str, image_html, nl. by intros [message [=]]. Qed.

Lemma answer_error_fragment (e : exn) : error_fragment (answer (inl e)).
Proof. by exists (exn_str e). Qed.

End RetrievalRuns.

(** ** The scenarios of the specification, on the reference runtime *)

Example cat_is_published :
  fst (Scenario.upload_ref Scenario.cat_file (Scenario.fresh Scenario.cat_text []))
  = inr (redirect "/files/cat.jpg")
  /\ gcs Scenario.cat_published !! "cat.jpg" = Some "JFIF-bytes-of-a-cat"
  /\ gcs Scenario.cat_published !! "cat.json"
     = Some (RefRuntime.dumps Scenario.cat_record)
  /\ fs Scenario.cat_published = ∅.
Proof. repeat split; vm_compute; reflexivity. Qed.

Example cat_page_is_rendered :
  fst (Scenario.get_file_ref "cat.jpg" Scenario.cat_published)
  = inr (flask_str (image_html "Cat" "cat.jpg" "A cat.")).
Proof. vm_compute. reflexivity. Qed.

Example dog_gets_the_default_record :
  gcs (snd (Scenario.upload_ref Scenario.dog_file (Scenario.fresh "" []))) !! "dog.json"
  = Some (RefRuntime.dumps default_metadata).
Proof. vm_compute. reflexivity. Qed.

Example missing_file_is_reported :
  fst (Scenario.get_file_ref "missing.jpg" (Scenario.fresh "" []))
  = inr (flask_str (error_html (rt := RefRuntime.runtime) (NotFound "missing.jpg"))).
Proof. vm_compute. reflexivity. Qed.

(** * The claims *)

(** C1: a run of [upload] that answers with the redirect leaves the
    uploaded bytes under the file name and the serialised caption record
    under the derived key, a different key; it changes no other object, and
    the redirect points to [/files/<filename>]. *)
Theorem upload_leaves_image_and_metadata
  {rt : PyRuntime} (file : file_storage) (w w' : world) (r : response) :
  upload (Request (Some file)) w = (inr r, w') ->
  status r = 302 ->
  r = redirect ("/files/" +:+ filename file)
  /\ json_name (filename file) <> filename file
  /\ exists metadata,
       caption_of_text (reply w) = inr metadata
       /\ gcs w' = <[json_name (filename file) := json_dumps metadata]>
                     (<[filename file := stream file]> (gcs w))
       /\ gcs w' !! filename file = Some (stream file)
       /\ gcs w' !! json_name (filename file) = Some (json_dumps metadata).
Proof.
  intros Hrun Hok.
  apply upload_success in Hrun; [|done].
  apply upload_try_ok in Hrun as (metadata & Hcap & -> & Hpath & Hgcs & _ & _).
  assert (json_name (filename file) <> filename file) as Hkey.
  { intros Heq. apply Hpath. by rewrite json_name_join, Heq. }
  split; [done|]. split; [done|]. exists metadata.
  split; [done|]. split; [done|]. rewrite Hgcs. split.
  - by rewrite lookup_insert_ne, lookup_insert_eq.
  - apply lookup_insert_eq.
Qed.

Lemma upload_cat_leaves_image_and_metadata :
  redirect "/files/cat.jpg" = redirect ("/files/" +:+ filename Scenario.cat_file)
  /\ json_name (filename Scenario.cat_file) <> filename Scenario.cat_file
  /\ exists metadata,
       caption_of_text (rt := RefRuntime.runtime)
         (reply (Scenario.fresh Scenario.cat_text [])) = inr metadata
       /\ gcs Scenario.cat_published
          = <[json_name (filename Scenario.cat_file) := RefRuntime.dumps metadata]>
              (<[filename Scenario.cat_file := stream Scenario.cat_file]>
                 (gcs (Scenario.fresh Scenario.cat_text [])))
       /\ gcs Scenario.cat_published !! filename Scenario.cat_file
          = Some (stream Scenario.cat_file)
       /\ gcs Scenario.cat_published !! json_name (filename Scenario.cat_file)
          = Some (RefRuntime.dumps metadata).
Proof.
  apply (upload_leaves_image_and_metadata (rt := RefRuntime.runtime)
           Scenario.cat_file (Scenario.fresh Scenario.cat_text [])
           Scenario.cat_published (redirect "/files/cat.jpg"));
    [vm_compute; reflexivity | reflexivity].
Defined.

(** C3, as stated, fails: a reply of one space is not empty and is not
    valid JSON, yet [strip] makes it empty, the default record is used and
    the run succeeds. *)
Lemma whitespace_reply_is_defaulted :
  reply (Scenario.fresh " " []) <> ""
  /\ RefRuntime.loads (reply (Scenario.fresh " " [])) = None
  /\ fst (Scenario.upload_ref Scenario.dog_file (Scenario.fresh " " []))
     = inr (redirect "/files/dog.jpeg")
  /\ gcs (snd (Scenario.upload_ref Scenario.dog_file (Scenario.fresh " " [])))
       !! "dog.json"
     = Some (RefRuntime.dumps default_metadata).
Proof.
  split; [discriminate|]. split; [reflexivity|].
  split; vm_compute; reflexivity.
Qed.

(** C3, amended: when the reply is empty after [strip] (empty, or nothing
    but white space), [generate_image_caption] yields the default record
    and a successful run stores it; when the stripped reply is not empty
    and [json.loads] rejects it, [generate_image_caption] raises and
    [upload] answers with the error body and status 500. *)
Theorem caption_default_or_failure
  {rt : PyRuntime} (file : file_storage) (w : world) :
  (Str.strip (reply w) = "" ->
     caption_of_text (reply w) = inr default_metadata
     /\ (forall p v w', generate_image_caption p w = (inr v, w') ->
           v = default_metadata)
     /\ (forall p, script w = [] -> is_Some (fs w !! p) ->
           exists w', generate_image_caption p w = (inr default_metadata, w'))
     /\ (forall r w', upload (Request (Some file)) w = (inr r, w') ->
           status r = 302 ->
           gcs w' !! json_name (filename file) = Some (json_dumps default_metadata)))
  /\ (Str.strip (reply w) <> "" -> json_loads (Str.strip (reply w)) = None ->
        caption_of_text (reply w) = inl (JSONDecodeError (Str.strip (reply w)))
        /\ (forall p, exists e w', generate_image_caption p w = (inl e, w'))
        /\ exists e w', upload (Request (Some file)) w = (inr (json_error e), w')
                        /\ status (json_error e) = 500).
Proof.
  split.
  - intros Hempty.
    assert (caption_of_text (reply w) = inr default_metadata) as Hcap.
    { unfold caption_of_text. by rewrite Hempty. }
    split; [done|]. split; [|split].
    + intros p v w'. rewrite generate_image_caption_eq, Hcap.
      destruct (hd false (script w)); [done|].
      destruct (fs w !! p); [|done].
      destruct (hd false (tl (script w))); [done|]. by intros [= <- _].
    + intros p Hs [data Hdata].
      rewrite generate_image_caption_eq, Hcap, Hs, Hdata. cbn [hd tl]. eauto.
    + intros r w' Hrun Hok.
      apply upload_success in Hrun; [|done].
      apply upload_try_ok in Hrun as (metadata & Hm & _ & _ & Hgcs & _ & _).
      rewrite Hcap in Hm. injection Hm as <-.
      rewrite Hgcs. apply lookup_insert_eq.
  - intros Hne Hbad.
    assert (caption_of_text (reply w) = inl (JSONDecodeError (Str.strip (reply w))))
      as Hcap.
    { unfold caption_of_text. apply String.eqb_neq in Hne. by rewrite Hne, Hbad. }
    split; [done|]. split.
    + intros p. rewrite generate_image_caption_eq, Hcap.
      destruct (hd false (script w)); [eauto|].
      destruct (fs w !! p); [|eauto].
      destruct (hd false (tl (script w))); eauto.
    + destruct (upload_aborted file w 4) as (e & n & w' & Hrun & _);
        [lia | right; eauto |]. eauto.
Qed.

Lemma caption_default_or_failure_dog :
  (gcs (snd (Scenario.upload_ref Scenario.dog_file (Scenario.fresh "" [])))
     !! json_name (filename Scenario.dog_file)
   = Some (RefRuntime.dumps default_metadata))
  /\ (exists e w',
        Scenario.upload_ref Scenario.dog_file (Scenario.fresh "not json" [])
        = (inr (json_error (rt := RefRuntime.runtime) e), w')
        /\ status (json_error (rt := RefRuntime.runtime) e) = 500).
Proof.
  split.
  - destruct (proj1 (caption_default_or_failure (rt := RefRuntime.runtime)
                       Scenario.dog_file (Scenario.fresh "" [])) eq_refl)
      as (_ & _ & _ & Hstore).
    apply (Hstore (redirect "/files/dog.jpeg"));
      [vm_compute; reflexivity | reflexivity].
  - apply (proj2 (caption_default_or_failure (rt := RefRuntime.runtime)
                    Scenario.dog_file (Scenario.fresh "not json" []))).
    + vm_compute. discriminate.
    + vm_compute. reflexivity.
Defined.




(** C5: when an exception is raised during steps 1 to 5, that is during
    the first [m] external calls with [m] at most 6 (a call faults, or the
    caption text is rejected), [upload] answers with the JSON error body
    and status 500, and the calls it made are the first [n] of the run in
    program order, each once, with [n] at most [m]: nothing after the
    failing step is executed and nothing is tried again. *)
Theorem upload_exception_aborts
  {rt : PyRuntime} (file : file_storage) (w : world) (m : nat) :
  (m <= 6)%nat ->
  raises_within m w ->
  exists e n w',
    upload (Request (Some file)) w = (inr (json_error e), w')
    /\ status (json_error e) = 500
    /\ content (json_error e) = Json [("error", exn_str e)]
    /\ (1 <= n <= m)%nat
    /\ log w' = log w ++ take n (upload_calls (filename file)).
Proof.
  intros Hm Hraise.
  destruct (upload_aborted file w m Hm Hraise) as (e & n & w' & Hrun & Hn & Hlog & _).
  exists e, n, w'. repeat split; try done; lia.
Qed.

Lemma upload_exception_aborts_publish :
  exists e n w',
    Scenario.upload_ref Scenario.cat_file (Scenario.fresh Scenario.cat_text [false; true])
    = (inr (json_error (rt := RefRuntime.runtime) e), w')
    /\ status (json_error (rt := RefRuntime.runtime) e) = 500
    /\ content (json_error (rt := RefRuntime.runtime) e)
       = Json [("error", RefRuntime.exn_text e)]
    /\ (1 <= n <= 2)%nat
    /\ log w' = log (Scenario.fresh Scenario.cat_text [false; true])
                ++ take n (upload_calls (filename Scenario.cat_file)).
Proof.
  apply (upload_exception_aborts (rt := RefRuntime.runtime) Scenario.cat_file
           (Scenario.fresh Scenario.cat_text [false; true]) 2); [lia|].
  left. exists 1%nat. split; [lia|]. exists []. reflexivity.
Defined.

(** C6, as stated, fails: for [photo.png] the metadata path is the image
    path, the run fails at the second deletion, and yet nothing of the run
    is left in the staging area; and when the last deletion faults, the
    staged image of [cat.jpg] has been cleaned up although the run fails. *)
Lemma failed_run_clears_staging :
  fst (Scenario.upload_ref Scenario.png_file (Scenario.fresh Scenario.cat_text []))
  = inr (json_error (rt := RefRuntime.runtime) (FileNotFoundError "files/photo.png"))
  /\ fs (snd (Scenario.upload_ref Scenario.png_file (Scenario.fresh Scenario.cat_text [])))
     = ∅
  /\ fst (Scenario.upload_ref Scenario.cat_file
            (Scenario.fresh Scenario.cat_text
               [false; false; false; false; false; false; false; true]))
     = inr (json_error (rt := RefRuntime.runtime) (OSError "files/cat.json"))
  /\ fs (snd (Scenario.upload_ref Scenario.cat_file
                (Scenario.fresh Scenario.cat_text
                   [false; false; false; false; false; false; false; true])))
       !! "files/cat.jpg"
     = None.
Proof. repeat split; vm_compute; reflexivity. Qed.

(** C6, amended: after a run that answers with the redirect neither staged
    file is in the staging area and no other file of it has changed; after
    a run in which staging succeeded and an exception is raised in steps 2
    to 5 (publish image, caption, persist metadata, publish metadata) the
    answer is the error and nothing has been cleaned up: the staging area
    is the one before the run with the staged image added, and with the
    staged metadata file added once it was written.  Failures of the
    cleanup itself are not covered. *)
Theorem staging_after_upload
  {rt : PyRuntime} (file : file_storage) (w w' : world) (r : response) :
  let local_path := os_path_join LOCAL_DIR (filename file) in
  let json_path := json_name local_path in
  upload (Request (Some file)) w = (inr r, w') ->
  (status r = 302 ->
     fs w' !! local_path = None /\ fs w' !! json_path = None
     /\ forall p, p <> local_path -> p <> json_path -> fs w' !! p = fs w !! p)
  /\ (hd false (script w) = false -> raises_within 6 w ->
        status r = 500
        /\ is_Some (fs w' !! local_path)
        /\ (forall p, is_Some (fs w !! p) -> is_Some (fs w' !! p))
        /\ (fs w' = <[local_path := stream file]> (fs w)
            \/ exists text,
                 fs w' = <[json_path := text]> (<[local_path := stream file]> (fs w)))).
Proof.
  intros local_path json_path Hrun. split.
  - intros Hok. apply upload_success in Hrun; [|done].
    apply upload_try_ok in Hrun as (metadata & _ & _ & Hne & _ & Hfs & _).
    fold local_path json_path in Hne, Hfs. rewrite Hfs. split; [|split].
    + by rewrite lookup_delete_ne, lookup_delete_eq.
    + apply lookup_delete_eq.
    + intros p H1 H2. by rewrite !lookup_delete_ne, !lookup_insert_ne.
  - intros Hsaved Hraise.
    destruct (upload_aborted file w 6) as (e & n & w0 & Hrun0 & _ & _ & Hfs);
      [lia | done |].
    rewrite Hrun in Hrun0. injection Hrun0 as -> ->. split; [done|].
    fold local_path json_path in Hfs.
    destruct Hfs as [(_ & Hfault & _)|[Hfs|[text Hfs]]].
    + by rewrite Hsaved in Hfault.
    + rewrite Hfs. split; [|split].
      * rewrite lookup_insert_eq. eauto.
      * intros p Hp. rewrite lookup_insert_is_Some'. eauto.
      * by left.
    + rewrite Hfs. split; [|split].
      * rewrite !lookup_insert_is_Some'. eauto.
      * intros p Hp. rewrite !lookup_insert_is_Some'. eauto.
      * right. eauto.
Qed.

Lemma staging_after_upload_cat :
  (fs Scenario.cat_published !! os_path_join LOCAL_DIR (filename Scenario.cat_file) = None
   /\ fs Scenario.cat_published
        !! json_name (os_path_join LOCAL_DIR (filename Scenario.cat_file)) = None)
  /\ (is_Some
        (fs (snd (Scenario.upload_ref Scenario.cat_file
                    (Scenario.fresh Scenario.cat_text [false; true])))
           !! os_path_join LOCAL_DIR (filename Scenario.cat_file))).
Proof.
  split.
  - destruct (staging_after_upload (rt := RefRuntime.runtime) Scenario.cat_file
                (Scenario.fresh Scenario.cat_text []) Scenario.cat_published
                (redirect "/files/cat.jpg")) as [Hok _];
      [vm_compute; reflexivity|].
    destruct (Hok eq_refl) as (H1 & H2 & _). split; [exact H1 | exact H2].
  - destruct (staging_after_upload (rt := RefRuntime.runtime) Scenario.cat_file
                (Scenario.fresh Scenario.cat_text [false; true])
                (snd (Scenario.upload_ref Scenario.cat_file
                        (Scenario.fresh Scenario.cat_text [false; true])))
                (json_error (rt := RefRuntime.runtime) (GoogleAPIError "cat.jpg")))
      as [_ Hfail]; [vm_compute; reflexivity|].
    destruct Hfail as (_ & H & _); [reflexivity | | exact H].
    left. exists 1%nat. split; [lia|]. exists []. reflexivity.
Defined.

(** C7, as stated, fails: the reply with three fields is stored as it
    parses; the stored record is not of the expected two-field structure,
    its title and its description are no strings, and [get_file] answers
    with the composed page, which shows [1] and [None], not with an
    error. *)
Lemma odd_record_is_rendered :
  gcs Replay.odd_published !! "cat.jpg" = Some "JFIF-bytes-of-a-cat"
  /\ (exists data,
        gcs Replay.odd_published !! "cat.json" = Some data
        /\ RefRuntime.loads data = Some Replay.odd_value)
  /\ (forall t d, ~ two_field_record t d Replay.odd_value)
  /\ fst (Scenario.get_file_ref "cat.jpg" Replay.odd_published)
     = inr (Response 200 (Html (image_html "1" "cat.jpg" "None")))
  /\ ~ error_fragment (Response 200 (Html (image_html "1" "cat.jpg" "None"))).
Proof.
  split; [vm_compute; reflexivity|]. split.
  { eexists. split; vm_compute; reflexivity. }
  split; [by intros t d [H|H]|]. split; [vm_compute; reflexivity|].
  apply page_not_error.
Qed.

(** C7, amended: [get_file] never lets an exception escape; and when no
    external call faults, its answer is the error fragment exactly when the
    image object is missing, or the object under the derived key is
    missing, or the stored record cannot be read as an object with a title
    and a description (it is not JSON, or no object, or lacks one of the
    two); otherwise it is the page composed of a value of each of the two
    fields, whatever else the record holds.  A record of the expected
    structure, two strings and nothing else, is always shown, with its two
    strings. *)
Theorem get_file_reports_errors {rt : PyRuntime} (name : string) (w : world) :
  (exists r w', get_file name w = (inr r, w'))
  /\ (script w = [] ->
      exists r w',
        get_file name w = (inr r, w')
        /\ (error_fragment r <->
              gcs w !! name = None
              \/ gcs w !! json_name name = None
              \/ exists data, gcs w !! json_name name = Some data
                              /\ unreadable_record data)
        /\ (~ error_fragment r ->
              exists data fields t d page,
                gcs w !! json_name name = Some data
                /\ json_loads data = Some (VDict fields)
                /\ (("title", t) ∈ fields) /\ (("description", d) ∈ fields)
                /\ r = Response 200 (Html page)
                /\ page = image_html (py_str t) name (py_str d)
                /\ shows "h2" (py_str t) page /\ shows "p" (py_str d) page
                /\ embeds_image name page)
        /\ (forall data v t d,
              is_Some (gcs w !! name) ->
              gcs w !! json_name name = Some data ->
              json_loads data = Some v ->
              two_field_record t d v ->
              r = Response 200 (Html (image_html t name d)))).
Proof.
  split.
  { destruct (get_file_returns name w) as (r & w' & H & _). eauto. }
  intros Hs.
  destruct (get_file_quiet name w Hs) as (w0 & _ & _ & Hget & _).
  exists (answer (retrieved (gcs w) name)), w0. split; [done|].
  unfold retrieved.
  destruct (gcs w !! name) as [img|] eqn:Himg.
  2:{ split; [|split].
      - split; [eauto|]. intros _. apply answer_error_fragment.
      - intros Hn. destruct Hn. apply answer_error_fragment.
      - intros data v t d [? [=]]. }
  destruct (gcs w !! json_name name) as [data|] eqn:Hdata.
  2:{ split; [|split].
      - split; [eauto|]. intros _. apply answer_error_fragment.
      - intros Hn. destruct Hn. apply answer_error_fragment.
      - by intros data v t d _ [=]. }
  destruct (view_of_cases name data)
    as [(fields & t & d & Hv & Ht & Hd & Hview)|(Hun & e & Hview)];
    rewrite Hview; cbn [answer].
  - split; [|split].
    + split.
      * intros H. by apply page_not_error in H.
      * intros [[=]|[[=]|(data' & [= <-] & Hun)]].
        destruct (Hun _ Hv). split; eapply elem_has_field; eauto.
    + intros _. exists data, fields, t, d, (image_html (py_str t) name (py_str d)).
      do 6 (split; [done|]). apply image_html_shows.
    + intros data' v t' d' _ [= <-] Hv' Hrec.
      rewrite (view_of_two_field name data v t' d' Hv' Hrec) in Hview.
      unfold flask_str in *. congruence.
  - split; [|split].
    + split; [|intros _; apply answer_error_fragment].
      intros _. right. right. eauto.
    + intros Hn. destruct Hn. apply answer_error_fragment.
    + intros data' v t' d' _ [= <-] Hv' Hrec.
      by rewrite (view_of_two_field name data v t' d' Hv' Hrec) in Hview.
Qed.

Lemma get_file_reports_errors_missing :
  exists r w',
    Scenario.get_file_ref "missing.jpg" Scenario.cat_published = (inr r, w')
    /\ error_fragment r.
Proof.
  destruct (proj2 (get_file_reports_errors (rt := RefRuntime.runtime)
                     "missing.jpg" Scenario.cat_published) eq_refl)
    as (r & w' & Hrun & Hiff & _).
  exists r, w'. split; [exact Hrun|].
  apply Hiff. left. vm_compute. reflexivity.
Defined.

(** C8: when the [try] block of [get_file] raises, the answer is the HTML
    error fragment with status 200, which is the status of every answer of
    [get_file], the successful ones included. *)
Theorem get_file_error_has_success_status
  {rt : PyRuntime} (name : string) (w w1 : world) (e : exn) :
  get_file_try name w = (inl e, w1) ->
  get_file name w = (inr (Response 200 (Html (error_html e))), w1)
  /\ (forall w0 r w2, get_file name w0 = (inr r, w2) -> status r = 200).
Proof.
  intros Hfail. split.
  - unfold get_file, try_except. by rewrite Hfail.
  - intros w0 r w2 Hrun.
    destruct (get_file_returns name w0) as (r0 & w3 & Hrun0 & Hst & _).
    rewrite Hrun in Hrun0. by injection Hrun0 as -> ->.
Qed.

Lemma get_file_error_has_success_status_missing :
  Scenario.get_file_ref "missing.jpg" (Scenario.fresh "" [])
  = (inr (Response 200 (Html (error_html (rt := RefRuntime.runtime)
                                (NotFound "missing.jpg")))),
     snd (Scenario.get_file_ref "missing.jpg" (Scenario.fresh "" [])))
  /\ (forall w0 r w2,
        get_file (rt := RefRuntime.runtime) "missing.jpg" w0 = (inr r, w2) ->
        status r = 200).
Proof.
  apply (get_file_error_has_success_status (rt := RefRuntime.runtime)
           "missing.jpg" (Scenario.fresh "" [])).
  vm_compute. reflexivity.
Defined.

(** C9: for a file name whose image and record are in the bucket, two
    retrievals in succession without an external fault give the same
    answer, leave the bucket as it was, and both fetch the stored record,
    byte for byte, into the staging area. *)
Theorem get_file_twice
  {rt : PyRuntime} (name : string) (w : world) (img data : string) :
  script w = [] ->
  gcs w !! name = Some img ->
  gcs w !! json_name name = Some data ->
  exists r w1 w2,
    get_file name w = (inr r, w1)
    /\ get_file name w1 = (inr r, w2)
    /\ gcs w1 = gcs w /\ gcs w2 = gcs w
    /\ fs w1 !! os_path_join LOCAL_DIR (json_name name) = Some data
    /\ fs w2 !! os_path_join LOCAL_DIR (json_name name) = Some data
    /\ r = answer (view_of name data).
Proof.
  intros Hs Himg Hdata.
  destruct (get_file_quiet name w Hs) as (w1 & Hg1 & Hs1 & Hget1 & Hfs1).
  destruct (get_file_quiet name w1 Hs1) as (w2 & Hg2 & _ & Hget2 & Hfs2).
  exists (answer (retrieved (gcs w) name)), w1, w2.
  rewrite Hg1 in Hget2, Hfs2, Hg2.
  repeat split; try done.
  - apply Hfs1; [by rewrite Himg|done].
  - apply Hfs2; [by rewrite Himg|done].
  - unfold retrieved. by rewrite Himg, Hdata.
Qed.

Lemma get_file_twice_cat :
  exists r w1 w2,
    Scenario.get_file_ref "cat.jpg" Scenario.cat_published = (inr r, w1)
    /\ Scenario.get_file_ref "cat.jpg" w1 = (inr r, w2)
    /\ gcs w1 = gcs Scenario.cat_published /\ gcs w2 = gcs Scenario.cat_published
    /\ fs w1 !! os_path_join LOCAL_DIR (json_name "cat.jpg")
       = Some (RefRuntime.dumps Scenario.cat_record)
    /\ fs w2 !! os_path_join LOCAL_DIR (json_name "cat.jpg")
       = Some (RefRuntime.dumps Scenario.cat_record)
    /\ r = answer (rt := RefRuntime.runtime)
             (view_of (rt := RefRuntime.runtime) "cat.jpg"
                (RefRuntime.dumps Scenario.cat_record)).
Proof.
  apply (get_file_twice (rt := RefRuntime.runtime) "cat.jpg" Scenario.cat_published
           (stream Scenario.cat_file) (RefRuntime.dumps Scenario.cat_record));
    vm_compute; reflexivity.
Defined.

(** C10, as stated, fails: the empty file name contains neither [.jpg] nor
    [.jpeg], and it cannot be staged, for its staging path is the staging
    directory itself, which the disk does not open as a file.  That
    refusal is the fault of the first call: [file.save] raises, the run
    ends there with the error, and nothing is written to the bucket. *)
Lemma empty_name_is_not_published :
  Str.contains ".jpg" (filename Scenario.nameless_file) = false
  /\ Str.contains ".jpeg" (filename Scenario.nameless_file) = false
  /\ staged_name (filename Scenario.nameless_file) = false
  /\ os_path_join LOCAL_DIR (filename Scenario.nameless_file) = "files/"
  /\ fst (Scenario.upload_ref Scenario.nameless_file
            (Scenario.fresh Scenario.cat_text [true]))
     = inr (json_error (rt := RefRuntime.runtime) (OSError "files/"))
  /\ gcs (snd (Scenario.upload_ref Scenario.nameless_file
                 (Scenario.fresh Scenario.cat_text [true]))) = ∅
  /\ log (snd (Scenario.upload_ref Scenario.nameless_file
                 (Scenario.fresh Scenario.cat_text [true]))) = [CSave "files/"].
Proof. repeat split; vm_compute; reflexivity. Qed.

(** C10, amended: for a file name that contains neither [.jpg] nor
    [.jpeg] the derived key is the file name and the metadata path is the
    image path, so no run answers with the redirect; and when the name can
    be staged, no external call faults and the caption text is accepted,
    the run writes the caption record over the staged image, publishes it
    under the image's own key, where it replaces the image, deletes the
    staged file, and fails at the second deletion: the answer is the error
    for the missing file, after all eight calls and both writes to the
    bucket. *)
Theorem upload_without_image_extension
  {rt : PyRuntime} (file : file_storage) (w : world) :
  let name := filename file in
  let local_path := os_path_join LOCAL_DIR name in
  Str.contains ".jpg" name = false ->
  Str.contains ".jpeg" name = false ->
  json_name name = name
  /\ json_name local_path = local_path
  /\ (exists e w', upload (Request (Some file)) w = (inr (json_error e), w'))
  /\ (forall metadata,
        staged_name name = true ->
        script w = [] ->
        caption_of_text (reply w) = inr metadata ->
        exists w',
          upload (Request (Some file)) w
          = (inr (json_error (FileNotFoundError local_path)), w')
          /\ gcs w' = <[name := json_dumps metadata]> (<[name := stream file]> (gcs w))
          /\ gcs w' !! name = Some (json_dumps metadata)
          /\ fs w' = delete local_path
                       (<[local_path := json_dumps metadata]>
                          (<[local_path := stream file]> (fs w)))
          /\ fs w' !! local_path = None
          /\ log w' = log w ++ upload_calls name).
Proof.
  intros name local_path Hjpg Hjpeg.
  assert (json_name name = name) as Hname by by apply json_name_absent.
  assert (json_name local_path = local_path) as Hpath.
  { unfold local_path. by rewrite json_name_join, Hname. }
  split; [done|]. split; [done|]. split.
  - destruct (upload_returns (Request (Some file)) w) as (r & w' & Hrun & Hcase).
    destruct Hcase as [Hok|(e & _ & ->)]; [|eauto].
    apply upload_try_ok in Hok as (_ & _ & _ & Hne & _). by destruct Hne.
  - intros metadata _ Hs Hcap.
    destruct w as [g f txt s l]. cbn [script reply] in Hs, Hcap. subst s.
    open_upload. fold name local_path. rewrite Hname, Hpath.
    do 2 run_step. rewrite lookup_insert_eq.
    run_step. rewrite lookup_insert_eq, Hcap.
    do 2 run_step. rewrite lookup_insert_eq.
    run_step. rewrite lookup_insert_eq.
    run_step. rewrite lookup_delete_eq.
    eexists. split; [done|]. world_simpl.
    repeat split; try done.
    + apply lookup_insert_eq.
    + apply lookup_delete_eq.
    + rewrite <- !app_assoc. unfold upload_calls. fold name local_path.
      by rewrite Hname, Hpath.
Qed.

Lemma upload_without_image_extension_png :
  json_name (filename Scenario.png_file) = filename Scenario.png_file
  /\ json_name (os_path_join LOCAL_DIR (filename Scenario.png_file))
     = os_path_join LOCAL_DIR (filename Scenario.png_file)
  /\ (exists e w',
        Scenario.upload_ref Scenario.png_file (Scenario.fresh Scenario.cat_text [])
        = (inr (json_error (rt := RefRuntime.runtime) e), w'))
  /\ (exists w',
        Scenario.upload_ref Scenario.png_file (Scenario.fresh Scenario.cat_text [])
        = (inr (json_error (rt := RefRuntime.runtime)
                  (FileNotFoundError (os_path_join LOCAL_DIR (filename Scenario.png_file)))),
           w')
        /\ gcs w' !! filename Scenario.png_file
           = Some (RefRuntime.dumps Scenario.cat_record)
        /\ fs w' !! os_path_join LOCAL_DIR (filename Scenario.png_file) = None).
Proof.
  destruct (upload_without_image_extension (rt := RefRuntime.runtime)
              Scenario.png_file (Scenario.fresh Scenario.cat_text []))
    as (H1 & H2 & H3 & H4); [reflexivity | reflexivity |].
  split; [exact H1|]. split; [exact H2|]. split; [exact H3|].
  destruct (H4 Scenario.cat_record) as (w' & Hrun & _ & Hgcs & _ & Hfs & _);
    [reflexivity | reflexivity | vm_compute; reflexivity |].
  exists w'. split; [exact Hrun|]. split; [exact Hgcs | exact Hfs].
Defined.

(** * Further properties of the code *)

(** ** The metadata key *)

Section KeyFacts.

Lemma startswith_replace_dotless (q p n s : string) :
  has_char "." q = false ->
  Str.startswith q (Str.replace_from (String "." p) (String "." n) 0 s)
  = Str.startswith q s.
Proof.
  revert s. induction q as [|a q IH]; intros s Hq; [by destruct s|].
  cbn [has_char] in Hq. apply orb_false_iff in Hq as [Ha Hq].
  destruct s as [|c s]; [done|]. cbn [Str.replace_from].
  destruct (Str.startswith (String "." p) (String c s)) eqn:E.
  - cbn [Str.startswith] in E. apply andb_true_iff in E as [E _].
    apply Ascii.eqb_eq in E as <-. rewrite append_cons. cbn [Str.startswith].
    by rewrite (Ascii.eqb_sym a "."), Ha.
  - cbn [Str.startswith]. by rewrite IH.
Qed.

Lemma contains_dotless_prefix (q n s : string) :
  has_char "." n = false ->
  Str.contains (String "." q) (n +:+ s) = Str.contains (String "." q) s.
Proof.
  intros Hn. induction n as [|c n IH]; [done|].
  cbn [has_char] in Hn. apply orb_false_iff in Hn as [Hc Hn].
  rewrite append_cons. cbn [Str.contains Str.startswith].
  by rewrite Hc, IH.
Qed.

(** After [replace] the replaced pattern is gone, when the replacement
    does not begin like the pattern. *)
Lemma replace_removes (q n s : string) (k : nat) :
  has_char "." q = false -> has_char "." n = false ->
  (forall y, Str.startswith q (n +:+ y) = false) ->
  Str.contains (String "." q) (Str.replace_from (String "." q) (String "." n) k s)
  = false.
Proof.
  intros Hq Hn Hdiff. revert k. induction s as [|c s IH]; intros k; [done|].
  cbn [Str.replace_from]. destruct k as [|k]; [|apply IH].
  destruct (Str.startswith (String "." q) (String c s)) eqn:E.
  - rewrite append_cons. cbn [Str.contains Str.startswith].
    by rewrite Hdiff, andb_false_r, contains_dotless_prefix, IH.
  - cbn [Str.contains]. rewrite IH, orb_false_r.
    cbn [Str.startswith] in *. by rewrite startswith_replace_dotless.
Qed.

(** [replace] does not make another dotted pattern appear. *)
Lemma replace_keeps_absent (q p n s : string) (k : nat) :
  has_char "." q = false -> has_char "." n = false ->
  (forall y, Str.startswith q (n +:+ y) = false) ->
  Str.contains (String "." q) s = false ->
  Str.contains (String "." q) (Str.replace_from (String "." p) (String "." n) k s)
  = false.
Proof.
  intros Hq Hn Hdiff. revert k. induction s as [|c s IH]; intros k Hs; [done|].
  cbn [Str.contains] in Hs. apply orb_false_iff in Hs as [Hhead Hs].
  cbn [Str.replace_from]. destruct k as [|k]; [|by apply IH].
  destruct (Str.startswith (String "." p) (String c s)) eqn:E.
  - rewrite append_cons. cbn [Str.contains Str.startswith].
    by rewrite Hdiff, andb_false_r, contains_dotless_prefix, IH.
  - cbn [Str.contains]. rewrite IH, orb_false_r by done.
    cbn [Str.startswith] in *. by rewrite startswith_replace_dotless.
Qed.

Lemma endswith_contains (p s : string) :
  Str.endswith p s = true -> Str.contains p s = true.
Proof.
  induction s as [|c s IH]; cbn [Str.endswith Str.contains].
  - intros H. by apply String.eqb_eq in H as ->.
  - intros H. apply orb_true_iff in H as [H|H].
    + apply String.eqb_eq in H as ->. by rewrite startswith_refl.
    + by rewrite IH, orb_true_r.
Qed.

Lemma json_name_clean (s : string) :
  Str.contains ".jpg" (json_name s) = false
  /\ Str.contains ".jpeg" (json_name s) = false.
Proof.
  unfold json_name, Str.replace. split.
  - by apply (replace_removes "jpg" "json").
  - apply (replace_keeps_absent "jpeg" "jpg" "json"); [done..|].
    by apply (replace_removes "jpeg" "json").
Qed.

Lemma json_name_not_image (s : string) : is_image (json_name s) = false.
Proof.
  destruct (json_name_clean s) as [Hjpg Hjpeg]. unfold is_image.
  apply orb_false_iff. split; apply not_true_is_false; intros H;
    apply endswith_contains in H; congruence.
Qed.

End KeyFacts.

(** X1: the key that [upload] and [get_file] derive from a file name
    contains neither [.jpg] nor [.jpeg], so it never counts as an image
    for the gallery, and deriving the key of a key changes nothing. *)
Theorem metadata_key_is_no_image (s : string) :
  Str.contains ".jpg" (json_name s) = false
  /\ Str.contains ".jpeg" (json_name s) = false
  /\ is_image (json_name s) = false
  /\ json_name (json_name s) = json_name s.
Proof.
  destruct (json_name_clean s) as [Hjpg Hjpeg].
  repeat split; try done.
  - apply json_name_not_image.
  - by apply json_name_absent.
Qed.

(** ** The gallery *)

Section GalleryFacts.

Lemma fold_index_step (files : list string) (idx : nat) (html : string) :
  snd (fold_left index_step files (idx, html)) =
  html +:+ (if Nat.even idx then rows_of (List.filter is_image files)
            else rows_open (List.filter is_image files)).
Proof.
  revert idx html. induction files as [|file files IH]; intros idx html.
  - cbn. destruct (Nat.even idx); by rewrite append_empty_r.
  - cbn [fold_left index_step List.filter].
    destruct (is_image file) eqn:Himg; [|apply IH].
    rewrite IH, Nat.odd_succ, Nat.even_succ, <- Nat.negb_even.
    destruct (Nat.even idx) eqn:Hev; cbn [negb].
    + rewrite !append_assoc.
      destruct (List.filter _ files) as [|b rest]; cbn [rows_of rows_open].
      * by rewrite append_empty_r.
      * done.
    + by rewrite !append_assoc.
Qed.

#[local] Instance leb_total : Total (fun a b : string => Is_true (String.leb a b)).
Proof.
  intros a b. destruct (String.leb_total a b) as [H|H]; rewrite H; [by left|by right].
Qed.

Lemma blob_names_elem (bucket : gmap string string) (x : string) :
  x ∈ blob_names bucket <-> is_Some (bucket !! x).
Proof.
  unfold blob_names. by rewrite merge_sort_Permutation, elem_of_elements, elem_of_dom.
Qed.

Lemma blob_names_NoDup (bucket : gmap string string) : NoDup (blob_names bucket).
Proof. unfold blob_names. rewrite merge_sort_Permutation. apply NoDup_elements. Qed.

Lemma images_elem (bucket : gmap string string) (x : string) :
  x ∈ List.filter is_image (blob_names bucket)
  <-> is_Some (bucket !! x) /\ is_image x = true.
Proof. by rewrite list_elem_of_In, filter_In, <- list_elem_of_In, blob_names_elem. Qed.

Lemma index_eq (w : world) :
  index w =
  (if hd false (script w) then inl (GoogleAPIError BUCKET_NAME)
   else inr (flask_str (index_html_of (blob_names (gcs w)))),
   World (gcs w) (fs w) (reply w) (tl (script w)) (log w)).
Proof.
  unfold index, get_gcs_files, bind, unlogged, ret.
  by destruct (hd false (script w)).
Qed.

Lemma get_image_eq (name : string) (w : world) :
  get_image name w =
  (if hd false (script w) then inl (OSError (os_path_join LOCAL_DIR name))
   else match fs w !! os_path_join LOCAL_DIR name with
        | Some data => inr data
        | None => inl (FileNotFoundError (os_path_join LOCAL_DIR name))
        end,
   World (gcs w) (fs w) (reply w) (tl (script w)) (log w)).
Proof.
  unfold get_image, send_file, bind, unlogged, read_file.
  destruct (hd false (script w)); [done|]. cbn [fs].
  by destruct (fs w !! _).
Qed.

End GalleryFacts.

(** X2: the loop of [index] lays the listed names that end in [.jpeg] or
    [.jpg] out two to a row, in the order of the listing, and skips every
    other name; when the images are odd in number the last row is opened
    and never closed. *)
Theorem index_html_of_rows (files : list string) :
  index_html_of files
  = INDEX_FORM +:+ rows_of (List.filter is_image files) +:+ "</table>".
Proof.
  unfold index_html_of. rewrite fold_index_step. cbn [Nat.even].
  by rewrite append_assoc.
Qed.

(** X3: when the listing does not fault, [index] answers 200 with the
    gallery of exactly the objects of the bucket whose names end in
    [.jpeg] or [.jpg], each once and in lexicographic order of the
    listing, and leaves the bucket and the staging area as they were;
    when the listing faults the exception leaves the view, for [index]
    has no [try]. *)
Theorem index_lists_the_images (w : world) :
  let images := List.filter is_image (blob_names (gcs w)) in
  (forall x, x ∈ images <-> is_Some (gcs w !! x) /\ is_image x = true)
  /\ NoDup images
  /\ Sorted (fun a b : string => Is_true (String.leb a b)) (blob_names (gcs w))
  /\ exists w',
       gcs w' = gcs w /\ fs w' = fs w
       /\ index w =
          (if hd false (script w) then inl (GoogleAPIError BUCKET_NAME)
           else inr (flask_str (INDEX_FORM +:+ rows_of images +:+ "</table>")), w').
Proof.
  intros images. split; [apply images_elem|]. split.
  { unfold images. apply NoDup_ListNoDup, List.NoDup_filter, NoDup_ListNoDup,
      blob_names_NoDup. }
  split; [unfold blob_names; apply Sorted_merge_sort, leb_total|].
  exists (World (gcs w) (fs w) (reply w) (tl (script w)) (log w)).
  split; [done|]. split; [done|]. rewrite index_eq.
  destruct (hd false (script w)); [done|].
  unfold index_html_of. rewrite fold_index_step. cbn [Nat.even].
  by rewrite append_assoc.
Qed.

(** ** More on the runs of [upload] *)

Ltac shape :=
  intros [= <- <-]; world_simpl; split; [|split]; [eauto 10 | eauto 10 | done].

Section MoreUploadRuns.

Context {rt : PyRuntime}.
Variable file : file_storage.

Let name := filename file.
Let local_path := os_path_join LOCAL_DIR name.
Let json_path := json_name local_path.

(** The bucket and the staging area after any run of [upload]. *)
Lemma upload_world (w w' : world) (r : response) :
  upload (Request (Some file)) w = (inr r, w') ->
  (gcs w' = gcs w
   \/ gcs w' = <[name := stream file]> (gcs w)
   \/ exists text, gcs w' = <[json_name name := text]> (<[name := stream file]> (gcs w)))
  /\ (fs w' = fs w
      \/ fs w' = <[local_path := stream file]> (fs w)
      \/ exists text,
           fs w' = <[json_path := text]> (<[local_path := stream file]> (fs w))
           \/ fs w' = delete local_path
                        (<[json_path := text]> (<[local_path := stream file]> (fs w)))
           \/ fs w' = delete json_path (delete local_path
                        (<[json_path := text]> (<[local_path := stream file]> (fs w)))))
  /\ reply w' = reply w.
Proof.
  open_upload. fold name local_path json_path.
  run_step. destruct (hd false (script w)); [shape|].
  run_step. destruct (hd false (tl (script w))); [shape|].
  rewrite lookup_insert_eq.
  run_step. destruct (hd false (tl (tl (script w)))); [shape|].
  rewrite lookup_insert_eq.
  destruct (hd false (tl (tl (tl (script w))))); [shape|].
  destruct (caption_of_text (reply w)) as [e|metadata]; [shape|].
  run_step. destruct (hd false _); [shape|].
  run_step. destruct (hd false _); [shape|].
  rewrite lookup_insert_eq.
  run_step. destruct (hd false _); [shape|].
  destruct (_ !! local_path); [|shape].
  run_step. destruct (hd false _); [shape|].
  destruct (_ !! json_path); shape.
Qed.

(** A run that staged and published the image and then raises in steps 3
    to 5 leaves the image in the bucket and writes nothing else to it. *)
Lemma upload_aborted_after_publish (w : world) :
  hd false (script w) = false ->
  hd false (tl (script w)) = false ->
  raises_within 6 w ->
  exists e w',
    upload (Request (Some file)) w = (inr (json_error e), w')
    /\ gcs w' = <[name := stream file]> (gcs w).
Proof.
  intros H0 H1 [(k & Hk & rest & Hs)|[_ [e0 He0]]].
  - destruct w as [g f r s l]. cbn [script] in *. subst s.
    open_upload. fold name local_path json_path.
    destruct k as [|[|[|[|[|[|k]]]]]]; [done|done| | | | |lia]; cbn [repeat app].
    + do 2 run_step. rewrite lookup_insert_eq. run_step. eauto.
    + do 2 run_step. rewrite lookup_insert_eq. run_step.
      rewrite lookup_insert_eq. eauto.
    + do 2 run_step. rewrite lookup_insert_eq. run_step.
      rewrite lookup_insert_eq.
      destruct (caption_of_text r) as [e|metadata]; [eauto|].
      run_step. eauto.
    + do 2 run_step. rewrite lookup_insert_eq. run_step.
      rewrite lookup_insert_eq.
      destruct (caption_of_text r) as [e|metadata]; [eauto|].
      do 2 run_step. eauto.
  - open_upload. fold name local_path json_path.
    run_step. rewrite H0. run_step. rewrite H1, lookup_insert_eq.
    run_step. destruct (hd false (tl (tl (script w)))); [eauto|].
    rewrite lookup_insert_eq, He0.
    destruct (hd false (tl (tl (tl (script w))))); eauto.
Qed.

End MoreUploadRuns.

(** X4: whatever the outcome of a run of [upload], it changes no object of
    the bucket other than the one under the file name and the one under
    the derived key, deletes no object, and changes no file of the
    staging area other than the staged image and the staged metadata. *)
Theorem upload_touches_only_its_own
  {rt : PyRuntime} (file : file_storage) (w w' : world) (r : response) :
  upload (Request (Some file)) w = (inr r, w') ->
  (forall k, k <> filename file -> k <> json_name (filename file) ->
     gcs w' !! k = gcs w !! k)
  /\ (forall k, is_Some (gcs w !! k) -> is_Some (gcs w' !! k))
  /\ (forall p, p <> os_path_join LOCAL_DIR (filename file) ->
        p <> json_name (os_path_join LOCAL_DIR (filename file)) ->
        fs w' !! p = fs w !! p).
Proof.
  intros Hrun. destruct (upload_world file w w' r Hrun) as (Hg & Hf & _).
  split; [|split].
  - intros k H1 H2. destruct Hg as [->|[->|[text ->]]];
      by rewrite ?lookup_insert_ne.
  - intros k Hk. destruct Hg as [->|[->|[text ->]]];
      rewrite ?lookup_insert_is_Some'; eauto.
  - intros p H1 H2. destruct Hf as [->|[->|[text [->|[->| ->]]]]];
      by rewrite ?lookup_delete_ne, ?lookup_insert_ne.
Qed.

Lemma upload_touches_only_its_own_cat :
  (forall k, k <> filename Scenario.cat_file ->
     k <> json_name (filename Scenario.cat_file) ->
     gcs Scenario.cat_published !! k = gcs (Scenario.fresh Scenario.cat_text []) !! k)
  /\ (forall k, is_Some (gcs (Scenario.fresh Scenario.cat_text []) !! k) ->
        is_Some (gcs Scenario.cat_published !! k))
  /\ (forall p, p <> os_path_join LOCAL_DIR (filename Scenario.cat_file) ->
        p <> json_name (os_path_join LOCAL_DIR (filename Scenario.cat_file)) ->
        fs Scenario.cat_published !! p = fs (Scenario.fresh Scenario.cat_text []) !! p).
Proof.
  apply (upload_touches_only_its_own (rt := RefRuntime.runtime) Scenario.cat_file
           (Scenario.fresh Scenario.cat_text []) Scenario.cat_published
           (redirect "/files/cat.jpg")).
  vm_compute. reflexivity.
Defined.

(** X5: there is no rollback.  When the image was staged and published and
    an exception is raised in steps 3 to 5, [upload] answers 500 and the
    new image stays in the bucket, which is otherwise as before the run.
    For a file name that the extension swap changes (a name with [.jpg] or
    [.jpeg]) the object under the derived key is then the one from before
    the run: the detail page of the name shows the new image with the
    record of an earlier upload, if there was one, and is the error for
    the missing object otherwise. *)
Theorem failed_upload_keeps_image
  {rt : PyRuntime} (file : file_storage) (w w' : world) (r : response) :
  let name := filename file in
  upload (Request (Some file)) w = (inr r, w') ->
  hd false (script w) = false ->
  hd false (tl (script w)) = false ->
  raises_within 6 w ->
  status r = 500
  /\ gcs w' = <[name := stream file]> (gcs w)
  /\ (json_name name <> name ->
      gcs w' !! json_name name = gcs w !! json_name name
      /\ forall w2, gcs w2 = gcs w' -> script w2 = [] ->
           exists w3,
             get_file name w2
             = (inr (answer (match gcs w !! json_name name with
                             | Some data => view_of name data
                             | None => inl (NotFound (json_name name))
                             end)), w3)).
Proof.
  intros name Hrun H0 H1 Hraise.
  destruct (upload_aborted_after_publish file w H0 H1 Hraise) as (e & w0 & Hrun0 & Hg).
  rewrite Hrun in Hrun0. injection Hrun0 as -> ->. fold name in Hg.
  split; [done|]. split; [done|]. intros Hkey. split.
  { by rewrite Hg, lookup_insert_ne. }
  intros w2 Hg2 Hs2.
  destruct (get_file_quiet name w2 Hs2) as (w3 & _ & _ & Hget & _).
  exists w3. rewrite Hget. do 3 f_equal. unfold retrieved.
  by rewrite Hg2, Hg, lookup_insert_eq, lookup_insert_ne.
Qed.

Lemma failed_upload_keeps_image_cat :
  status (json_error (rt := RefRuntime.runtime) GeminiError) = 500
  /\ gcs (snd (Scenario.upload_ref Replay.cat_again_file
                 (Replay.after_cat Scenario.cat_text [false; false; true])))
     = <[filename Replay.cat_again_file := stream Replay.cat_again_file]>
         (gcs (Replay.after_cat Scenario.cat_text [false; false; true]))
  /\ gcs (snd (Scenario.upload_ref Replay.cat_again_file
                 (Replay.after_cat Scenario.cat_text [false; false; true])))
       !! json_name (filename Replay.cat_again_file)
     = gcs (Replay.after_cat Scenario.cat_text [false; false; true])
         !! json_name (filename Replay.cat_again_file)
  /\ forall w2,
       gcs w2 = gcs (snd (Scenario.upload_ref Replay.cat_again_file
                            (Replay.after_cat Scenario.cat_text [false; false; true]))) ->
       script w2 = [] ->
       exists w3,
         get_file (rt := RefRuntime.runtime) (filename Replay.cat_again_file) w2
         = (inr (answer (rt := RefRuntime.runtime)
                   (match gcs (Replay.after_cat Scenario.cat_text [false; false; true])
                            !! json_name (filename Replay.cat_again_file) with
                    | Some data =>
                        view_of (rt := RefRuntime.runtime)
                          (filename Replay.cat_again_file) data
                    | None => inl (NotFound (json_name (filename Replay.cat_again_file)))
                    end)), w3).
Proof.
  destruct (failed_upload_keeps_image (rt := RefRuntime.runtime) Replay.cat_again_file
              (Replay.after_cat Scenario.cat_text [false; false; true])
              (snd (Scenario.upload_ref Replay.cat_again_file
                      (Replay.after_cat Scenario.cat_text [false; false; true])))
              (json_error (rt := RefRuntime.runtime) GeminiError))
    as (Hst & Hg & Hkey).
  - vm_compute. reflexivity.
  - reflexivity.
  - reflexivity.
  - left. exists 2%nat. split; [lia|]. exists []. reflexivity.
  - split; [exact Hst|]. split; [exact Hg|]. apply Hkey. vm_compute. discriminate.
Defined.

(** X6: a second successful upload under the same file name overwrites
    both objects: the bucket is what the second upload alone would have
    left on the bucket from before the first. *)
Theorem reupload_overwrites
  {rt : PyRuntime} (file1 file2 : file_storage) (w0 w1 w1' w2 : world)
  (r1 r2 : response) :
  upload (Request (Some file1)) w0 = (inr r1, w1) ->
  status r1 = 302 ->
  gcs w1' = gcs w1 ->
  filename file2 = filename file1 ->
  upload (Request (Some file2)) w1' = (inr r2, w2) ->
  status r2 = 302 ->
  exists metadata,
    caption_of_text (reply w1') = inr metadata
    /\ gcs w2 = <[json_name (filename file2) := json_dumps metadata]>
                  (<[filename file2 := stream file2]> (gcs w0)).
Proof.
  intros Hrun1 Hok1 Hg Hname Hrun2 Hok2.
  apply upload_success in Hrun1; [|done].
  apply upload_try_ok in Hrun1 as (m1 & _ & _ & _ & Hg1 & _ & _).
  apply upload_success in Hrun2; [|done].
  apply upload_try_ok in Hrun2 as (m2 & Hcap & _ & Hne & Hg2 & _ & _).
  assert (json_name (filename file2) <> filename file2) as Hkey.
  { intros Heq. apply Hne. by rewrite json_name_join, Heq. }
  exists m2. split; [done|].
  rewrite Hg2, Hg, Hg1, Hname. rewrite Hname in Hkey.
  rewrite (insert_insert_ne _ (filename file1) (json_name (filename file1))) by done.
  by rewrite insert_insert_eq, insert_insert_eq.
Qed.

Lemma reupload_overwrites_cat :
  exists metadata,
    caption_of_text (rt := RefRuntime.runtime) (reply (Replay.after_cat "" []))
    = inr metadata
    /\ gcs Replay.cat_twice
       = <[json_name (filename Replay.cat_again_file) := RefRuntime.dumps metadata]>
           (<[filename Replay.cat_again_file := stream Replay.cat_again_file]>
              (gcs (Scenario.fresh Scenario.cat_text []))).
Proof.
  apply (reupload_overwrites (rt := RefRuntime.runtime) Scenario.cat_file
           Replay.cat_again_file
           (Scenario.fresh Scenario.cat_text []) Scenario.cat_published
           (Replay.after_cat "" []) Replay.cat_twice
           (redirect "/files/cat.jpg") (redirect "/files/cat.jpg")).
  - vm_compute. reflexivity.
  - reflexivity.
  - reflexivity.
  - reflexivity.
  - vm_compute. reflexivity.
  - reflexivity.
Defined.

(** X7: two different file names with the same derived key (such as
    [cat.jpg] and [cat.jpeg]) share one record.  After both are uploaded
    the first image is still in the bucket, the record under the shared
    key is the caption of the second, and the detail page of the first
    name shows that caption. *)
Theorem colliding_names_share_the_record
  {rt : PyRuntime} (file1 file2 : file_storage) (w0 w1 w1' w2 : world)
  (r1 r2 : response) :
  upload (Request (Some file1)) w0 = (inr r1, w1) ->
  status r1 = 302 ->
  gcs w1' = gcs w1 ->
  filename file1 <> filename file2 ->
  json_name (filename file1) = json_name (filename file2) ->
  upload (Request (Some file2)) w1' = (inr r2, w2) ->
  status r2 = 302 ->
  exists metadata,
    caption_of_text (reply w1') = inr metadata
    /\ gcs w2 !! filename file1 = Some (stream file1)
    /\ gcs w2 !! json_name (filename file1) = Some (json_dumps metadata)
    /\ forall w3, gcs w3 = gcs w2 -> script w3 = [] ->
         exists w4,
           get_file (filename file1) w3
           = (inr (answer (view_of (filename file1) (json_dumps metadata))), w4).
Proof.
  intros Hrun1 Hok1 Hg Hnames Hkeys Hrun2 Hok2.
  destruct (upload_stored_after_success file1 w0 w1 r1 Hrun1 Hok1)
    as (m1 & _ & Himg1 & _).
  apply upload_success in Hrun1; [|done].
  apply upload_try_ok in Hrun1 as (_ & _ & _ & Hne1 & _).
  apply upload_success in Hrun2; [|done].
  apply upload_try_ok in Hrun2 as (m2 & Hcap & _ & _ & Hg2 & _ & _).
  assert (json_name (filename file1) <> filename file1) as Hkey1.
  { intros Heq. apply Hne1. by rewrite json_name_join, Heq. }
  exists m2. split; [done|].
  assert (gcs w2 !! filename file1 = Some (stream file1)) as H1.
  { rewrite Hg2, <- Hkeys, !lookup_insert_ne, Hg by done. done. }
  assert (gcs w2 !! json_name (filename file1) = Some (json_dumps m2)) as H2.
  { rewrite Hg2, <- Hkeys. apply lookup_insert_eq. }
  split; [done|]. split; [done|].
  intros w3 Hg3 Hs3.
  destruct (get_file_quiet (filename file1) w3 Hs3) as (w4 & _ & _ & Hget & _).
  exists w4. rewrite Hget. do 3 f_equal. unfold retrieved.
  by rewrite Hg3, H1, H2.
Qed.

Lemma colliding_names_share_the_record_cat :
  exists metadata,
    caption_of_text (rt := RefRuntime.runtime) (reply (Replay.after_cat "" []))
    = inr metadata
    /\ gcs Replay.cat_and_jpeg !! filename Scenario.cat_file
       = Some (stream Scenario.cat_file)
    /\ gcs Replay.cat_and_jpeg !! json_name (filename Scenario.cat_file)
       = Some (RefRuntime.dumps metadata)
    /\ forall w3, gcs w3 = gcs Replay.cat_and_jpeg -> script w3 = [] ->
         exists w4,
           get_file (rt := RefRuntime.runtime) (filename Scenario.cat_file) w3
           = (inr (answer (rt := RefRuntime.runtime)
                     (view_of (rt := RefRuntime.runtime)
                        (filename Scenario.cat_file) (RefRuntime.dumps metadata))),
              w4).
Proof.
  apply (colliding_names_share_the_record (rt := RefRuntime.runtime)
           Scenario.cat_file Replay.cat_jpeg_file
           (Scenario.fresh Scenario.cat_text []) Scenario.cat_published
           (Replay.after_cat "" []) Replay.cat_and_jpeg
           (redirect "/files/cat.jpg") (redirect "/files/cat.jpeg")).
  - vm_compute. reflexivity.
  - reflexivity.
  - reflexivity.
  - discriminate.
  - reflexivity.
  - vm_compute. reflexivity.
  - reflexivity.
Defined.

(** X8: [upload] does not check what the reply parses to.  When the name
    can be staged and is changed by the extension swap, no call faults,
    and the reply is valid JSON whose serialisation cannot be read as a
    record with a title and a description (a list, say), the run answers
    with the redirect and stores it, and the detail page of the file is
    then the error fragment. *)
Theorem unchecked_caption_breaks_detail_page
  {rt : PyRuntime} (file : file_storage) (w : world) (v : value) :
  let name := filename file in
  staged_name name = true ->
  json_name name <> name ->
  script w = [] ->
  caption_of_text (reply w) = inr v ->
  unreadable_record (json_dumps v) ->
  exists w1,
    upload (Request (Some file)) w = (inr (redirect ("/files/" +:+ name)), w1)
    /\ gcs w1 !! json_name name = Some (json_dumps v)
    /\ forall w2, gcs w2 = gcs w1 -> script w2 = [] ->
         exists r w3, get_file name w2 = (inr r, w3) /\ error_fragment r.
Proof.
  intros name _ Hkey Hs Hcap Hun. subst name.
  destruct (upload_succeeds file w v Hs Hcap Hkey) as [w1 Hrun]. exists w1.
  destruct (upload_stored_after_success file w w1 _ Hrun eq_refl)
    as (metadata & Hcap' & Himg & Hrec).
  rewrite Hcap in Hcap'. injection Hcap' as <-.
  split; [done|]. split; [done|]. intros w2 Hg2 Hs2.
  destruct (get_file_quiet (filename file) w2 Hs2) as (w3 & _ & _ & Hget & _).
  destruct (view_of_cases (filename file) (json_dumps v))
    as [(fields & t & d & Hv & Ht & Hd & _)|(_ & e & Hview)].
  { destruct (Hun _ Hv). split; eapply elem_has_field; eauto. }
  eexists _, w3. split; [exact Hget|]. unfold retrieved.
  rewrite Hg2, Himg, Hrec, Hview. apply answer_error_fragment.
Qed.

Lemma unchecked_caption_breaks_detail_page_list :
  exists w1,
    Scenario.upload_ref Scenario.cat_file (Scenario.fresh Replay.list_text [])
    = (inr (redirect ("/files/" +:+ filename Scenario.cat_file)), w1)
    /\ gcs w1 !! json_name (filename Scenario.cat_file)
       = Some (RefRuntime.dumps Replay.list_value)
    /\ forall w2, gcs w2 = gcs w1 -> script w2 = [] ->
         exists r w3,
           Scenario.get_file_ref (filename Scenario.cat_file) w2 = (inr r, w3)
           /\ error_fragment r.
Proof.
  apply (unchecked_caption_breaks_detail_page (rt := RefRuntime.runtime)
           Scenario.cat_file (Scenario.fresh Replay.list_text []) Replay.list_value).
  - reflexivity.
  - vm_compute. discriminate.
  - reflexivity.
  - vm_compute. reflexivity.
  - intros v Hv [(fields & Hdict & _) _].
    vm_compute in Hv. injection Hv as <-. discriminate Hdict.
Defined.

(** X9: [upload] never lets an exception escape and answers with status
    302 or 500; a request without the form field [form_file] is answered
    with 500 before any external call, the world left as it was. *)
Theorem upload_always_answers {rt : PyRuntime} (req : request) (w : world) :
  (exists r w', upload req w = (inr r, w') /\ (status r = 302 \/ status r = 500))
  /\ upload (Request None) w = (inr (json_error (BadRequestKeyError "form_file")), w).
Proof.
  split; [|done].
  destruct (upload_returns req w) as (r & w' & Hrun & [Hok|(e & _ & ->)]).
  - exists r, w'. split; [done|]. left.
    destruct req as [[file|]]; [|done].
    apply upload_try_ok in Hok as (metadata & _ & Hr & _). by rewrite Hr.
  - eexists _, _. split; [done|]. by right.
Qed.

(** X10: right after a successful upload the image route cannot serve the
    file: the staged copy was deleted, so [get_image] raises, and the
    exception is the one for the missing file when the read does not
    fault. *)
Theorem image_route_after_upload
  {rt : PyRuntime} (file : file_storage) (w w' : world) (r : response) :
  upload (Request (Some file)) w = (inr r, w') ->
  status r = 302 ->
  fs w' !! os_path_join LOCAL_DIR (filename file) = None
  /\ forall w2, fs w2 = fs w' ->
       exists e w3,
         get_image (filename file) w2 = (inl e, w3)
         /\ (hd false (script w2) = false ->
             e = FileNotFoundError (os_path_join LOCAL_DIR (filename file))).
Proof.
  intros Hrun Hok. apply upload_success in Hrun; [|done].
  apply upload_try_ok in Hrun as (metadata & _ & _ & Hne & _ & Hfs & _).
  assert (fs w' !! os_path_join LOCAL_DIR (filename file) = None) as Hgone.
  { rewrite Hfs. by rewrite lookup_delete_ne, lookup_delete_eq. }
  split; [done|]. intros w2 Hfs2. rewrite get_image_eq, Hfs2, Hgone.
  destruct (hd false (script w2)); eexists _, _; split; done.
Qed.

Lemma image_route_after_upload_cat :
  fs Scenario.cat_published !! os_path_join LOCAL_DIR (filename Scenario.cat_file) = None
  /\ forall w2, fs w2 = fs Scenario.cat_published ->
       exists e w3,
         get_image (filename Scenario.cat_file) w2 = (inl e, w3)
         /\ (hd false (script w2) = false ->
             e = FileNotFoundError (os_path_join LOCAL_DIR (filename Scenario.cat_file))).
Proof.
  apply (image_route_after_upload (rt := RefRuntime.runtime) Scenario.cat_file
           (Scenario.fresh Scenario.cat_text []) Scenario.cat_published
           (redirect "/files/cat.jpg")).
  - vm_compute. reflexivity.
  - reflexivity.
Defined.

(** X11: a successful upload adds to the gallery the uploaded name, when
    it ends in [.jpeg] or [.jpg], and nothing else: the record it stores
    is never listed, and an image whose name does not end so is published
    and not shown. *)
Theorem gallery_after_upload
  {rt : PyRuntime} (file : file_storage) (w w' : world) (r : response) :
  upload (Request (Some file)) w = (inr r, w') ->
  status r = 302 ->
  forall x,
    x ∈ List.filter is_image (blob_names (gcs w'))
    <-> x ∈ List.filter is_image (blob_names (gcs w))
        \/ (x = filename file /\ is_image (filename file) = true).
Proof.
  intros Hrun Hok x. apply upload_success in Hrun; [|done].
  apply upload_try_ok in Hrun as (metadata & _ & _ & _ & Hg & _ & _).
  rewrite !images_elem, Hg, !lookup_insert_is_Some'. split.
  - intros [[<-|[<-|Hx]] Himg].
    + by rewrite json_name_not_image in Himg.
    + by right.
    + by left.
  - intros [[Hx Himg]|[-> Himg]]; eauto.
Qed.

Lemma gallery_after_upload_bak :
  filename Replay.bak_file
    ∈ List.filter is_image
        (blob_names (gcs (snd (Scenario.upload_ref Replay.bak_file
                                 (Replay.after_cat Scenario.cat_text [])))))
  <-> filename Replay.bak_file
        ∈ List.filter is_image (blob_names (gcs (Replay.after_cat Scenario.cat_text [])))
      \/ (filename Replay.bak_file = filename Replay.bak_file
          /\ is_image (filename Replay.bak_file) = true).
Proof.
  apply (gallery_after_upload (rt := RefRuntime.runtime) Replay.bak_file
           (Replay.after_cat Scenario.cat_text [])
           (snd (Scenario.upload_ref Replay.bak_file
                   (Replay.after_cat Scenario.cat_text [])))
           (redirect "/files/cat.jpg.bak")).
  - vm_compute. reflexivity.
  - reflexivity.
Defined.

(** ** More on the runs of [get_file] and of the helpers *)

Section MoreRetrievalRuns.

Context {rt : PyRuntime}.
Variable name : string.

Let local_path := os_path_join LOCAL_DIR name.
Let json_path := os_path_join LOCAL_DIR (json_name name).

(** The bucket and the staging area after any run of [get_file]: the run
    stops at the first download, at the second, or after both. *)
Lemma get_file_world (w w' : world) (r : response) :
  get_file name w = (inr r, w') ->
  gcs w' = gcs w
  /\ ((hd false (script w) = true /\ fs w' = <[local_path := ""]> (fs w))
      \/ (hd false (script w) = false /\ gcs w !! name = None
          /\ fs w' = delete local_path (fs w)
          /\ r = answer (inl (NotFound name)))
      \/ exists img,
           hd false (script w) = false /\ gcs w !! name = Some img
           /\ ((hd false (tl (script w)) = true
                /\ fs w' = <[json_path := ""]> (<[local_path := img]> (fs w)))
               \/ (hd false (tl (script w)) = false
                   /\ gcs w !! json_name name = None
                   /\ fs w' = delete json_path (<[local_path := img]> (fs w))
                   /\ r = answer (inl (NotFound (json_name name))))
               \/ exists data,
                    hd false (tl (script w)) = false
                    /\ gcs w !! json_name name = Some data
                    /\ fs w' = <[json_path := data]> (<[local_path := img]> (fs w)))).
Proof.
  unfold get_file, try_except, get_file_try, bind, ret, lift.
  run_step. fold local_path.
  destruct (hd false (script w)) eqn:H0; [intros [= <- <-]; world_simpl; eauto|].
  destruct (gcs w !! name) as [img|] eqn:Himg;
    [|intros [= <- <-]; world_simpl; eauto 10].
  run_step. fold json_path.
  destruct (hd false (tl (script w))) eqn:H1;
    [intros [= <- <-]; world_simpl; eauto 10|].
  destruct (gcs w !! json_name name) as [data|] eqn:Hdata;
    [|intros [= <- <-]; world_simpl; split; [done|]; right; right;
      exists img; eauto 10].
  run_step. rewrite lookup_insert_eq.
  destruct (hd false (tl (tl (script w))));
    [intros [= <- <-]; world_simpl; eauto 15|].
  destruct (json_loads data) as [metadata|];
    [|intros [= <- <-]; world_simpl; eauto 15].
  destruct (getitem metadata "title"); [intros [= <- <-]; world_simpl; eauto 15|].
  destruct (getitem metadata "description"); intros [= <- <-]; world_simpl; eauto 15.
Qed.

(** The two targets are one file only when the two keys are one key. *)
Lemma json_path_is_local_path : json_path = local_path -> json_name name = name.
Proof. apply os_path_join_inj. Qed.

(** When the image is in the bucket and its download does not fault, the
    run leaves the image staged, unless the second download writes to the
    same file and faults. *)
Lemma get_file_stages_image (w w' : world) (r : response) (img : string) :
  get_file name w = (inr r, w') ->
  hd false (script w) = false ->
  gcs w !! name = Some img ->
  json_name name <> name \/ hd false (tl (script w)) = false ->
  fs w' !! local_path = Some img.
Proof.
  intros Hrun H0 Himg Hsecond.
  destruct (get_file_world w w' r Hrun)
    as (_ & [(Hf & _)|[(_ & Hn & _)|(img' & _ & Himg' & Hfs)]]); [congruence..|].
  rewrite Himg in Himg'. injection Himg' as <-.
  destruct (decide (json_path = local_path)) as [Heq|Hne].
  - pose proof (json_path_is_local_path Heq) as Hkey.
    destruct Hfs as [(H1 & _)|[(_ & Hnone & _)|(data & _ & Hdata & ->)]].
    + destruct Hsecond as [Hk|H1']; [done|congruence].
    + rewrite Hkey in Hnone. congruence.
    + rewrite Hkey, Himg in Hdata. injection Hdata as <-.
      rewrite Heq. apply lookup_insert_eq.
  - destruct Hfs as [(_ & ->)|[(_ & _ & -> & _)|(data & _ & _ & ->)]].
    + rewrite lookup_insert_ne by done. apply lookup_insert_eq.
    + rewrite lookup_delete_ne by done. apply lookup_insert_eq.
    + rewrite lookup_insert_ne by done. apply lookup_insert_eq.
Qed.

End MoreRetrievalRuns.

(** X12: [get_file] only reads the bucket, and in the staging area it
    touches nothing but its two download targets, whatever its outcome; it
    never cleans up what it downloaded.  A target whose object is missing
    does not survive, though: the storage client removes the file that it
    opened, whatever was staged there before, and the answer is the error
    fragment. *)
Theorem get_file_touches_only_its_targets
  {rt : PyRuntime} (name : string) (w w' : world) (r : response) :
  let local_path := os_path_join LOCAL_DIR name in
  let json_path := os_path_join LOCAL_DIR (json_name name) in
  get_file name w = (inr r, w') ->
  gcs w' = gcs w
  /\ (forall p, p <> local_path -> p <> json_path -> fs w' !! p = fs w !! p)
  /\ (hd false (script w) = false -> gcs w !! name = None ->
      fs w' !! local_path = None /\ error_fragment r)
  /\ (hd false (script w) = false -> hd false (tl (script w)) = false ->
      is_Some (gcs w !! name) -> gcs w !! json_name name = None ->
      fs w' !! json_path = None /\ error_fragment r)
  /\ (forall img data,
        hd false (script w) = false -> hd false (tl (script w)) = false ->
        gcs w !! name = Some img -> gcs w !! json_name name = Some data ->
        fs w' !! local_path = Some img /\ fs w' !! json_path = Some data).
Proof.
  intros local_path json_path Hrun.
  destruct (get_file_world name w w' r Hrun) as (Hg & Hfs).
  fold local_path json_path in Hfs.
  split; [done|]. split; [|split; [|split]].
  - intros p H1 H2.
    destruct Hfs as [(_ & ->)|[(_ & _ & -> & _)|
      (img & _ & _ & [(_ & ->)|[(_ & _ & -> & _)|(data & _ & _ & ->)]])]];
      by rewrite ?lookup_delete_ne, ?lookup_insert_ne.
  - intros H0 Hnone.
    destruct Hfs as [(Hf & _)|[(_ & _ & -> & ->)|(img & _ & Himg & _)]];
      [congruence| |congruence].
    split; [apply lookup_delete_eq|apply answer_error_fragment].
  - intros H0 H1 [img Himg] Hnone.
    destruct Hfs as [(Hf & _)|[(_ & Hn & _)|
      (img' & _ & _ & [(Hf & _)|[(_ & _ & -> & ->)|(data & _ & Hdata & _)]])]];
      [congruence..| |congruence].
    split; [apply lookup_delete_eq|apply answer_error_fragment].
  - intros img data H0 H1 Himg Hdata. split.
    + apply (get_file_stages_image name w w' r img); auto.
    + destruct Hfs as [(Hf & _)|[(_ & Hn & _)|
        (img' & _ & _ & [(Hf & _)|[(_ & Hn & _)|(data' & _ & Hdata' & ->)]])]];
        [congruence..|].
      rewrite Hdata in Hdata'. injection Hdata' as <-. apply lookup_insert_eq.
Qed.

Lemma get_file_touches_only_its_targets_orphan :
  gcs (snd (Scenario.get_file_ref "cat.jpg" Replay.orphan)) = gcs Replay.orphan
  /\ fs Replay.orphan !! "files/cat.json" = Some "stale-record"
  /\ fs (snd (Scenario.get_file_ref "cat.jpg" Replay.orphan))
       !! os_path_join LOCAL_DIR (json_name "cat.jpg") = None
  /\ exists r,
       fst (Scenario.get_file_ref "cat.jpg" Replay.orphan) = inr r /\ error_fragment r.
Proof.
  destruct (get_file_touches_only_its_targets (rt := RefRuntime.runtime) "cat.jpg"
              Replay.orphan (snd (Scenario.get_file_ref "cat.jpg" Replay.orphan))
              (flask_str (error_html (rt := RefRuntime.runtime) (NotFound "cat.json"))))
    as (Hg & _ & _ & Hgone & _); [vm_compute; reflexivity|].
  destruct Hgone as [Hfs Herr]; [reflexivity | reflexivity | by eexists | reflexivity |].
  split; [exact Hg|]. split; [reflexivity|]. split; [exact Hfs|].
  eexists. split; [vm_compute; reflexivity | exact Herr].
Defined.

(** X13: the detail page stages the image for the image route.  When the
    image is in the bucket and its download does not fault, then after
    [get_file], whether it answered with the page or with the error, the
    staged file holds the stored bytes and [get_image] serves them;
    unless the name is its own derived key, so that the second download
    writes to the same file, and that download faults. *)
Theorem detail_page_stages_the_image
  {rt : PyRuntime} (name : string) (w w' : world) (r : response) (img : string) :
  get_file name w = (inr r, w') ->
  hd false (script w) = false ->
  gcs w !! name = Some img ->
  json_name name <> name \/ hd false (tl (script w)) = false ->
  fs w' !! os_path_join LOCAL_DIR name = Some img
  /\ forall w2, fs w2 = fs w' -> hd false (script w2) = false ->
       exists w3, get_image name w2 = (inr img, w3).
Proof.
  intros Hrun H0 Himg Hsecond.
  pose proof (get_file_stages_image name w w' r img Hrun H0 Himg Hsecond) as Hstaged.
  split; [done|]. intros w2 Hfs2 Hs2.
  rewrite get_image_eq, Hs2, Hfs2, Hstaged. eauto.
Qed.

Lemma detail_page_stages_the_image_cat :
  fs (snd (Scenario.get_file_ref "cat.jpg" Scenario.cat_published))
    !! os_path_join LOCAL_DIR "cat.jpg"
  = Some (stream Scenario.cat_file)
  /\ forall w2,
       fs w2 = fs (snd (Scenario.get_file_ref "cat.jpg" Scenario.cat_published)) ->
       hd false (script w2) = false ->
       exists w3, get_image "cat.jpg" w2 = (inr (stream Scenario.cat_file), w3).
Proof.
  apply (detail_page_stages_the_image (rt := RefRuntime.runtime) "cat.jpg"
           Scenario.cat_published
           (snd (Scenario.get_file_ref "cat.jpg" Scenario.cat_published))
           (flask_str (image_html "Cat" "cat.jpg" "A cat."))).
  - vm_compute. reflexivity.
  - reflexivity.
  - vm_compute. reflexivity.
  - left. vm_compute. discriminate.
Defined.

(** X14: what [upload_to_gcs] publishes, [download_from_gcs] brings back:
    when neither call faults, the file staged under [LOCAL_DIR] for the
    blob holds the contents of the uploaded file, and so does the blob;
    a missing local file makes the upload raise with the bucket unchanged;
    and a missing blob makes the download raise [NotFound] and leaves no
    file at the target, whatever was there before. *)
Theorem gcs_round_trip (bucket file_path blob_name : string) (w : world) :
  hd false (script w) = false ->
  hd false (tl (script w)) = false ->
  (forall data, fs w !! file_path = Some data ->
     exists w1 w2,
       upload_to_gcs bucket file_path blob_name w = (inr tt, w1)
       /\ download_from_gcs bucket blob_name w1
          = (inr (os_path_join LOCAL_DIR blob_name), w2)
       /\ gcs w2 !! blob_name = Some data
       /\ fs w2 !! os_path_join LOCAL_DIR blob_name = Some data)
  /\ (fs w !! file_path = None ->
      exists w1,
        upload_to_gcs bucket file_path blob_name w
        = (inl (FileNotFoundError file_path), w1)
        /\ gcs w1 = gcs w)
  /\ (gcs w !! blob_name = None ->
      exists w1,
        download_from_gcs bucket blob_name w = (inl (NotFound blob_name), w1)
        /\ fs w1 = delete (os_path_join LOCAL_DIR blob_name) (fs w)
        /\ fs w1 !! os_path_join LOCAL_DIR blob_name = None).
Proof.
  intros H0 H1. split; [|split].
  - intros data Hdata. eexists _, _.
    rewrite upload_to_gcs_eq, H0, Hdata. split; [done|].
    rewrite download_from_gcs_eq. world_simpl. rewrite H1, lookup_insert_eq.
    split; [done|]. world_simpl. split; apply lookup_insert_eq.
  - intros Hnone. eexists. rewrite upload_to_gcs_eq, H0, Hnone. done.
  - intros Hnone. eexists. rewrite download_from_gcs_eq. cbn zeta.
    rewrite H0, Hnone. split; [done|]. world_simpl. split; [done|].
    apply lookup_delete_eq.
Qed.

Lemma gcs_round_trip_staged :
  (exists w1 w2,
     upload_to_gcs BUCKET_NAME "files/a.jpg" "a.jpg"
       (World ∅ {["files/a.jpg" := "bytes"]} "" [] []) = (inr tt, w1)
     /\ download_from_gcs BUCKET_NAME "a.jpg" w1
        = (inr (os_path_join LOCAL_DIR "a.jpg"), w2)
     /\ gcs w2 !! "a.jpg" = Some "bytes"
     /\ fs w2 !! os_path_join LOCAL_DIR "a.jpg" = Some "bytes")
  /\ (exists w1,
        download_from_gcs BUCKET_NAME "cat.json" Replay.orphan
        = (inl (NotFound "cat.json"), w1)
        /\ fs w1 = delete (os_path_join LOCAL_DIR "cat.json") (fs Replay.orphan)
        /\ fs w1 !! os_path_join LOCAL_DIR "cat.json" = None).
Proof.
  split.
  - apply (proj1 (gcs_round_trip BUCKET_NAME "files/a.jpg"
                    "a.jpg" (World ∅ {["files/a.jpg" := "bytes"]} "" [] [])
                    eq_refl eq_refl) "bytes").
    vm_compute. reflexivity.
  - apply (proj2 (proj2 (gcs_round_trip BUCKET_NAME "files/cat.jpg"
                           "cat.json" Replay.orphan eq_refl eq_refl))).
    vm_compute. reflexivity.
Defined.

(** ** After the upload of a name without an image extension *)

Section PlainName.

Context {rt : PyRuntime}.
Variable file : file_storage.

Let name := filename file.
Let local_path := os_path_join LOCAL_DIR name.

Lemma upload_plain_name (w : world) (metadata : value) :
  Str.contains ".jpg" name = false ->
  Str.contains ".jpeg" name = false ->
  script w = [] ->
  caption_of_text (reply w) = inr metadata ->
  exists w',
    upload (Request (Some file)) w
    = (inr (json_error (FileNotFoundError local_path)), w')
    /\ gcs w' = <[name := json_dumps metadata]> (gcs w).
Proof.
  intros Hjpg Hjpeg Hs Hcap.
  assert (json_name name = name) as Hname by by apply json_name_absent.
  assert (json_name local_path = local_path) as Hpath.
  { unfold local_path. by rewrite json_name_join, Hname. }
  destruct w as [g f txt s l]. cbn [script reply] in Hs, Hcap. subst s.
  open_upload. fold name local_path. rewrite Hname, Hpath.
  do 2 run_step. rewrite lookup_insert_eq.
  run_step. rewrite lookup_insert_eq, Hcap.
  do 2 run_step. rewrite lookup_insert_eq.
  run_step. rewrite lookup_insert_eq.
  run_step. rewrite lookup_delete_eq.
  eexists. split; [done|]. world_simpl. apply insert_insert_eq.
Qed.

End PlainName.


